(** * Reddit Data Scraper: a shallow embedding of [main.py]

    The program authenticates against the platform's API client, calls two
    read endpoints, reshapes the answers into data frames and offers them as
    CSV downloads.  The embedding keeps the shape of the source:

    - Python values are a small tagged union [PyVal]; an object received from
      the API client is its attribute dictionary, and reading an attribute
      that is not there raises [AttributeError], as in Python;
    - a [try]/[except Exception] block is a computation in the error monad
      [Result] followed by a handler;
    - the generator returned by [subreddit.top] is a [Listing]: it yields
      items and either ends or raises;
    - a data frame is its column labels and its rows;
    - the [st.cache_data] decorator threads an explicit cache and clock. *)

From Stdlib Require Import ZArith String Ascii List DecimalString.
From stdpp Require Import gmap strings list.

Open Scope string_scope.
Open Scope list_scope.
Open Scope stdpp_scope.
Open Scope Z_scope.

(** ** Python values and exceptions *)

(** An exception instance: its class name and the text [str(e)] gives. *)
Record Exception := mkException { exc_class : string; exc_msg : string }.

(** A computation that either raises or returns. *)
Definition Result (A : Type) : Type := Exception + A.

Definition raise {A} (e : Exception) : Result A := inl e.
Definition ret {A} (a : A) : Result A := inr a.

Definition bind {A B} (m : Result A) (k : A -> Result B) : Result B :=
  match m with
  | inl e => inl e
  | inr a => k a
  end.

Notation "x <- m ;; k" := (bind m (fun x => k))
  (at level 100, m at next level, right associativity, only parsing).

(** The values the program moves around.  A float is carried as its [repr]
    text, which identifies it; no arithmetic is done on floats here.
    [PyRedditor] is the account object behind [comment.author]. *)
Inductive PyVal :=
| PyNone
| PyStr (s : string)
| PyInt (z : Z)
| PyFloat (repr : string)
| PyRedditor (name : string).

Definition str_of_int (z : Z) : string := NilZero.string_of_int (Z.to_int z).

(** Python's [str(v)]. *)
Definition str (v : PyVal) : string :=
  match v with
  | PyNone => "None"
  | PyStr s => s
  | PyInt z => str_of_int z
  | PyFloat r => r
  | PyRedditor name => name
  end.

(** Python truthiness of an optional string, as used by [x or y]. *)
Definition truthy (o : option string) : bool :=
  match o with
  | None => false
  | Some s => negb (String.eqb s EmptyString)
  end.

Definition AttributeError (name : string) : Exception :=
  mkException "AttributeError" ("object has no attribute '" +:+ name +:+ "'").

Definition KeyError (key : string) : Exception :=
  mkException "KeyError" ("'" +:+ key +:+ "'").

Definition ValueError (msg : string) : Exception :=
  mkException "ValueError" msg.

(** [obj.name] on an object whose attributes are [obj]. *)
Definition getattr (obj : gmap string PyVal) (name : string) : Result PyVal :=
  match obj !! name with
  | Some v => ret v
  | None => raise (AttributeError name)
  end.

(** ** Data frames *)

(** [columns] are the labels, [data] the rows in index order.  A cell keeps
    the Python value it was given.  The type pandas infers for each column is
    not part of the model: in a column that holds a null beside integers the
    real frame has floats and NaN, and what stands for a null in a column of
    strings depends on the pandas version.  Which rows and columns a frame
    has, and their order, do not depend on it. *)
Record DataFrame := mkDataFrame { columns : list string; data : list (list PyVal) }.

(** [pd.DataFrame()]: no columns, no rows. *)
Definition DataFrame_empty : DataFrame := mkDataFrame [] [].

(** [len(df)] *)
Definition len (df : DataFrame) : nat := length (data df).

Definition NaN : PyVal := PyFloat "nan".

(** Row [i] of a list of equally long columns, for [i] below [n]. *)
Fixpoint rows_of (n : nat) (cols : list (list PyVal)) : list (list PyVal) :=
  match n with
  | O => []
  | S k => map (fun c => hd PyNone c) cols :: rows_of k (map (@tl PyVal) cols)
  end.

(** [pd.DataFrame(d)] for a dict [d] of lists: one column per key, in
    insertion order; columns of different lengths are refused. *)
Definition DataFrame_of_dict (d : list (string * list PyVal)) : Result DataFrame :=
  match d with
  | [] => ret DataFrame_empty
  | (_, c) :: _ =>
      if forallb (fun kc => Nat.eqb (length (snd kc)) (length c)) d
      then ret (mkDataFrame (map fst d) (rows_of (length c) (map snd d)))
      else raise (ValueError "All arrays must be of the same length")
  end.

(** [d[key]] on a dict kept as an association list. *)
Fixpoint dict_get {V} (key : string) (d : list (string * V)) : option V :=
  match d with
  | [] => None
  | (k, v) :: d' => if String.eqb k key then Some v else dict_get key d'
  end.

(** Labels of [keys] not yet in [acc], appended in order. *)
Fixpoint add_keys (acc keys : list string) : list string :=
  match keys with
  | [] => acc
  | k :: keys' =>
      if existsb (String.eqb k) acc then add_keys acc keys'
      else add_keys (acc ++ [k]) keys'
  end.

(** [pd.DataFrame(records)] for a list of dicts: the columns are the keys in
    order of first appearance, a key a record lacks is filled with NaN. *)
Definition DataFrame_of_records (records : list (list (string * PyVal))) : DataFrame :=
  let cols := fold_left (fun acc r => add_keys acc (map fst r)) records [] in
  mkDataFrame cols
    (map (fun r => map (fun c => default NaN (dict_get c r)) cols) records).

(** [d[key].append(v)] *)
Fixpoint dict_append (key : string) (v : PyVal) (d : list (string * list PyVal))
  : list (string * list PyVal) :=
  match d with
  | [] => []
  | (k, l) :: d' =>
      if String.eqb k key then (k, l ++ [v]) :: d' else (k, l) :: dict_append key v d'
  end.

(** ** The API client *)

(** What iterating [subreddit.top(...)] does: yield an item and go on, end,
    or raise. *)
Inductive Listing :=
| Exhausted
| Yield (post : gmap string PyVal) (rest : Listing)
| Raises (e : Exception).

(** A comment with its attributes and its replies. *)
#[warnings="-register-all"] Inductive Comment := mkComment (attrs : gmap string PyVal) (replies : list Comment).

Definition comment_attrs (c : Comment) : gmap string PyVal :=
  match c with mkComment a _ => a end.

Definition comment_replies (c : Comment) : list Comment :=
  match c with mkComment _ r => r end.

(** A submission: its attributes, and what
    [submission.comments.replace_more(limit=None)] leaves behind, the fully
    expanded top-level comments or the exception the expansion raised. *)
Record Submission := mkSubmission {
  submission_attrs : gmap string PyVal;
  submission_comments : Result (list Comment) }.

(** The session handle built by [praw.Reddit(...)]. *)
Record Reddit := mkReddit {
  client_id : string;
  client_secret : string;
  user_agent : string }.

(** The platform behind the session.  The [nat] is the number of requests
    already served, so that answers may change from one request to the next. *)
Record Remote := mkRemote {
  subreddit_top : Reddit -> nat -> string -> Z -> string -> Listing;
  submission_by_url : Reddit -> nat -> string -> Result Submission }.

Fixpoint listing_items (l : Listing) : list (gmap string PyVal) :=
  match l with
  | Yield post rest => post :: listing_items rest
  | _ => []
  end.

Fixpoint listing_error (l : Listing) : option Exception :=
  match l with
  | Exhausted => None
  | Yield _ rest => listing_error rest
  | Raises e => Some e
  end.

Fixpoint nodes (c : Comment) : nat :=
  match c with
  | mkComment _ rs => S (fold_right (fun r n => (nodes r + n)%nat) O rs)
  end.

Definition forest_nodes (f : list Comment) : nat :=
  fold_right (fun r n => (nodes r + n)%nat) O f.

(** [CommentForest.list()]: breadth first, with a queue.  The loop runs once
    per comment, so [forest_nodes] iterations empty the queue. *)
Fixpoint comments_bfs (fuel : nat) (queue : list Comment) : list Comment :=
  match fuel, queue with
  | S k, c :: q => c :: comments_bfs k (q ++ comment_replies c)
  | _, _ => []
  end.

Definition comments_list (forest : list Comment) : list Comment :=
  comments_bfs (forest_nodes forest) forest.

(** ** The fetch operations *)

Section Fetcher.

Variable remote : Remote.

Definition posts_dict_init : list (string * list PyVal) :=
  [("Title", []); ("Post Text", []); ("ID", []); ("Score", []);
   ("Total Comments", []); ("Post URL", [])].

(** The body of the [for] loop of [get_subreddit_posts]: each line reads one
    attribute of [post] and appends it to its column. *)
Definition append_post (post : gmap string PyVal) (posts_dict : list (string * list PyVal))
  : Result (list (string * list PyVal)) :=
  title <- getattr post "title" ;;
  let posts_dict := dict_append "Title" title posts_dict in
  selftext <- getattr post "selftext" ;;
  let posts_dict := dict_append "Post Text" selftext posts_dict in
  id <- getattr post "id" ;;
  let posts_dict := dict_append "ID" id posts_dict in
  score <- getattr post "score" ;;
  let posts_dict := dict_append "Score" score posts_dict in
  num_comments <- getattr post "num_comments" ;;
  let posts_dict := dict_append "Total Comments" num_comments posts_dict in
  url <- getattr post "url" ;;
  ret (dict_append "Post URL" url posts_dict).

(** The [for] loop over the generator. *)
Fixpoint collect_posts (l : Listing) (posts_dict : list (string * list PyVal))
  : Result (list (string * list PyVal)) :=
  match l with
  | Exhausted => ret posts_dict
  | Raises e => raise e
  | Yield post rest =>
      posts_dict <- append_post post posts_dict ;;
      collect_posts rest posts_dict
  end.

(** The [try] block of [get_subreddit_posts]; [served] is the number of
    requests the platform has served before this one. *)
Definition get_subreddit_posts_try (_reddit : Reddit) (served : nat)
    (subreddit_name : string) (post_limit : Z) (time_filter : string)
  : Result DataFrame :=
  posts_dict <- collect_posts
    (subreddit_top remote _reddit served subreddit_name post_limit time_filter)
    posts_dict_init ;;
  DataFrame_of_dict posts_dict.

(** [get_subreddit_posts] without its decorator: the frame returned and the
    messages shown through [st.error].  [main] always passes [time_filter],
    so its default value plays no part. *)
Definition get_subreddit_posts (_reddit : Reddit) (served : nat)
    (subreddit_name : string) (post_limit : Z) (time_filter : string)
  : DataFrame * list string :=
  match get_subreddit_posts_try _reddit served subreddit_name post_limit time_filter with
  | inr df => (df, [])
  | inl e => (DataFrame_empty, ["Error fetching subreddit posts: " +:+ exc_msg e])
  end.

Definition post_data_of (submission : gmap string PyVal) : Result (list (string * PyVal)) :=
  title <- getattr submission "title" ;;
  selftext <- getattr submission "selftext" ;;
  id <- getattr submission "id" ;;
  score <- getattr submission "score" ;;
  num_comments <- getattr submission "num_comments" ;;
  url <- getattr submission "url" ;;
  ret [("Title", title); ("Post Text", selftext); ("ID", id); ("Score", score);
       ("Total Comments", num_comments); ("Post URL", url)].

Definition comment_data_of (comment : gmap string PyVal) : Result (list (string * PyVal)) :=
  body <- getattr comment "body" ;;
  score <- getattr comment "score" ;;
  author <- getattr comment "author" ;;
  created_utc <- getattr comment "created_utc" ;;
  ret [("Comment Text", body); ("Score", score); ("Author", PyStr (str author));
       ("Created UTC", created_utc)].

(** The [for] loop of [get_post_by_url]. *)
Fixpoint collect_comments (comments : list Comment) (post_comments : list (list (string * PyVal)))
  : Result (list (list (string * PyVal))) :=
  match comments with
  | [] => ret post_comments
  | comment :: rest =>
      comment_data <- comment_data_of (comment_attrs comment) ;;
      collect_comments rest (post_comments ++ [comment_data])
  end.

(** The [try] block of [get_post_by_url]. *)
Definition get_post_by_url_try (_reddit : Reddit) (served : nat) (url : string)
  : Result (DataFrame * DataFrame) :=
  submission <- submission_by_url remote _reddit served url ;;
  post_data <- post_data_of (submission_attrs submission) ;;
  forest <- submission_comments submission ;;
  post_comments <- collect_comments (comments_list forest) [] ;;
  ret (DataFrame_of_records [post_data], DataFrame_of_records post_comments).

(** [get_post_by_url] without its decorator. *)
Definition get_post_by_url (_reddit : Reddit) (served : nat) (url : string)
  : (DataFrame * DataFrame) * list string :=
  match get_post_by_url_try _reddit served url with
  | inr dfs => (dfs, [])
  | inl e => ((DataFrame_empty, DataFrame_empty), ["Error fetching post: " +:+ exc_msg e])
  end.

End Fetcher.

(** ** Credentials *)

(** [os.environ.get(name) or st.secrets[name]]: the environment value when it
    is truthy, otherwise the subscript on the secret store, which raises for
    a name it does not hold.  [secrets] is the names the store holds, none
    when no secrets file is configured.  The exception is written [KeyError]
    here; the class and the text of what Streamlit raises (another class when
    there is no secrets file) are not part of the model. *)
Definition environ_or_secret (environ secrets : gmap string string) (name : string)
  : Result string :=
  if truthy (environ !! name) then ret (default EmptyString (environ !! name))
  else match secrets !! name with
       | Some v => ret v
       | None => raise (KeyError name)
       end.

Definition init_reddit (environ secrets : gmap string string) : Result Reddit :=
  client_id <- environ_or_secret environ secrets "REDDIT_CLIENT_ID" ;;
  client_secret <- environ_or_secret environ secrets "REDDIT_CLIENT_SECRET" ;;
  user_agent <- environ_or_secret environ secrets "REDDIT_USER_AGENT" ;;
  ret (mkReddit client_id client_secret user_agent).

(** ** Memoization *)

(** Modelled from the spec: the decorator [st.cache_data(ttl=3600)] is
    library code outside [main.py].  The spec has it as a mapping from the
    argument tuple to (value, expiry timestamp) with a fixed one-hour expiry
    per entry, the session handle (the parameter whose name starts with an
    underscore) being left out of the key.  Time is in seconds. *)
Record CacheEntry (V : Type) := mkCacheEntry { entry_value : V; entry_expires : Z }.
Arguments mkCacheEntry {V} _ _.
Arguments entry_value {V} _.
Arguments entry_expires {V} _.

Definition ttl : Z := 3600.

(** Modelled from the spec: the entry for [key], if it has not expired. *)
Definition cache_live `{Countable K} {V} (cache : gmap K (CacheEntry V)) (now : Z) (key : K)
  : option V :=
  match cache !! key with
  | Some e => if now <? entry_expires e then Some (entry_value e) else None
  | None => None
  end.

(** Modelled from the spec: storing a freshly computed value. *)
Definition cache_store `{Countable K} {V} (cache : gmap K (CacheEntry V)) (now : Z) (key : K)
    (v : V) : gmap K (CacheEntry V) :=
  <[key := mkCacheEntry v (now + ttl)]> cache.

(** The process-wide state: one cache per decorated function, and the number
    of requests the platform has served. *)
Record AppState := mkAppState {
  posts_cache : gmap (string * Z * string) (CacheEntry (DataFrame * list string));
  post_cache : gmap string (CacheEntry ((DataFrame * DataFrame) * list string));
  served : nat }.

Definition AppState_init : AppState := mkAppState ∅ ∅ O.

Section CachedFetcher.

Variable remote : Remote.

(** Modelled from the spec: [get_subreddit_posts] as decorated.  A live entry
    answers the call; otherwise the body runs, which is one remote call, and
    its result is stored. *)
Definition get_subreddit_posts_cached (_reddit : Reddit)
    (subreddit_name : string) (post_limit : Z) (time_filter : string)
    (now : Z) (st : AppState) : (DataFrame * list string) * AppState :=
  let key := (subreddit_name, post_limit, time_filter) in
  match cache_live (posts_cache st) now key with
  | Some v => (v, st)
  | None =>
      let v := get_subreddit_posts remote _reddit (served st)
                 subreddit_name post_limit time_filter in
      (v, mkAppState (cache_store (posts_cache st) now key v) (post_cache st)
            (S (served st)))
  end.

(** Modelled from the spec: [get_post_by_url] as decorated. *)
Definition get_post_by_url_cached (_reddit : Reddit) (url : string)
    (now : Z) (st : AppState) : ((DataFrame * DataFrame) * list string) * AppState :=
  match cache_live (post_cache st) now url with
  | Some v => (v, st)
  | None =>
      let v := get_post_by_url remote _reddit (served st) url in
      (v, mkAppState (posts_cache st) (cache_store (post_cache st) now url v)
            (S (served st)))
  end.

End CachedFetcher.

(** ** Export to delimited text *)

(** A Python [str] is kept as the bytes of its UTF-8 encoding, one [ascii] per
    byte.  The comma, the double quote and the line ends are single bytes that
    occur in no multi-byte sequence, so quoting works on the bytes as it does
    on the characters, and [.encode('utf-8')] only changes the type. *)
Definition encode_utf8 (s : string) : list Byte.byte := list_byte_of_string s.
Definition decode_utf8 (b : list Byte.byte) : string := string_of_list_byte b.

Definition comma : ascii := ","%char.
Definition dquote : ascii := "034"%char.
Definition LF : ascii := "010"%char.
Definition CR : ascii := "013"%char.

Definition special (c : ascii) : bool :=
  Ascii.eqb c comma || Ascii.eqb c dquote || Ascii.eqb c LF || Ascii.eqb c CR.

Fixpoint needs_quoting (s : string) : bool :=
  match s with
  | EmptyString => false
  | String c s' => special c || needs_quoting s'
  end.

Fixpoint double_quotes (s : string) : string :=
  match s with
  | EmptyString => EmptyString
  | String c s' =>
      if Ascii.eqb c dquote then String dquote (String dquote (double_quotes s'))
      else String c (double_quotes s')
  end.

(** Modelled from the spec: standard quoting, a field holding the delimiter,
    a quote or a line end is enclosed in quotes with its quotes doubled. *)
Definition csv_field (s : string) : string :=
  if needs_quoting s then String dquote (double_quotes s +:+ String dquote EmptyString)
  else s.

Fixpoint csv_join (fields : list string) : string :=
  match fields with
  | [] => EmptyString
  | [f] => f
  | f :: fs => f +:+ String comma (csv_join fs)
  end.

(** Modelled from the spec: one line per row.  A row that is a single empty
    field is written as a pair of quotes, as the csv writer behind
    [DataFrame.to_csv] does, so that it differs from a row without fields. *)
Definition csv_row (fields : list string) : string :=
  match fields with
  | [EmptyString] => String dquote (String dquote (String LF EmptyString))
  | _ => csv_join (map csv_field fields) +:+ String LF EmptyString
  end.

(** Modelled from the spec: the text written for a cell.  The spec leaves it
    open; as [DataFrame.to_csv] does by default, a missing value ([None],
    NaN) is written as nothing and any other value as [str] gives it. *)
Definition cell_text (v : PyVal) : string :=
  match v with
  | PyNone => EmptyString
  | PyFloat r => if String.eqb r "nan" then EmptyString else r
  | _ => str v
  end.

Fixpoint csv_lines (rows : list (list string)) : string :=
  match rows with
  | [] => EmptyString
  | r :: rows' => csv_row r +:+ csv_lines rows'
  end.

(** Modelled from the spec: [df.to_csv(index=False)], a header row of the
    column labels, then one row per record. *)
Definition to_csv (df : DataFrame) : string :=
  csv_lines (columns df :: map (map cell_text) (data df)).

(** Modelled from the spec: parsing delimited text back.  The spec names no
    parser; this is the usual five-state reader for the format above, with
    records ending at LF. *)
Inductive ReaderState :=
| START_RECORD
| START_FIELD
| IN_FIELD
| IN_QUOTED_FIELD
| QUOTE_IN_QUOTED_FIELD.

Definition snoc (s : string) (c : ascii) : string := s +:+ String c EmptyString.

(** One character: the next state, the field and the fields read so far, and
    the record this character completes, if any. *)
Definition process_char (st : ReaderState) (field : string) (fields : list string) (c : ascii)
  : ReaderState * string * list string * option (list string) :=
  let start_field :=
    if Ascii.eqb c LF then (START_RECORD, EmptyString, [], Some (fields ++ [EmptyString]))
    else if Ascii.eqb c dquote then (IN_QUOTED_FIELD, EmptyString, fields, None)
    else if Ascii.eqb c comma then (START_FIELD, EmptyString, fields ++ [EmptyString], None)
    else (IN_FIELD, String c EmptyString, fields, None) in
  let end_field :=
    if Ascii.eqb c LF then (START_RECORD, EmptyString, [], Some (fields ++ [field]))
    else if Ascii.eqb c comma then (START_FIELD, EmptyString, fields ++ [field], None)
    else (IN_FIELD, snoc field c, fields, None) in
  match st with
  | START_RECORD =>
      if Ascii.eqb c LF then (START_RECORD, EmptyString, [], Some []) else start_field
  | START_FIELD => start_field
  | IN_FIELD => end_field
  | IN_QUOTED_FIELD =>
      if Ascii.eqb c dquote then (QUOTE_IN_QUOTED_FIELD, field, fields, None)
      else (IN_QUOTED_FIELD, snoc field c, fields, None)
  | QUOTE_IN_QUOTED_FIELD =>
      if Ascii.eqb c dquote then (IN_QUOTED_FIELD, snoc field c, fields, None)
      else end_field
  end.

(** The reader over a whole text; [None] when the text ends inside quotes. *)
Fixpoint reader (st : ReaderState) (field : string) (fields : list string) (s : string)
  : option (list (list string)) :=
  match s with
  | EmptyString =>
      match st with
      | START_RECORD => Some []
      | IN_QUOTED_FIELD => None
      | _ => Some [fields ++ [field]]
      end
  | String c s' =>
      match process_char st field fields c with
      | (st', field', fields', Some row) => cons row <$> reader st' field' fields' s'
      | (st', field', fields', None) => reader st' field' fields' s'
      end
  end.

Definition read_csv (b : list Byte.byte) : option (list (list string)) :=
  reader START_RECORD EmptyString [] (decode_utf8 b).

(** ** The page *)

(** What one run of the script puts on the page. *)
Inductive Element :=
| st_title (body : string)
| st_header (body : string)
| st_subheader (body : string)
| st_success (body : string)
| st_error (body : string)
| st_dataframe (df : DataFrame)
| st_download_button (label : string) (bytes : list Byte.byte) (file_name mime key : string).

(** The widgets' values in this run: the radio choice, the text fields, the
    slider, the select box, and whether the mode's button was pressed. *)
Record Inputs := mkInputs {
  scrape_option : string;
  subreddit_name_input : string;
  post_limit_input : Z;
  time_filter_input : string;
  post_url_input : string;
  button : bool }.

Definition time_filters : list string := ["day"; "week"; "month"; "year"; "all"].

Definition str_of_len (n : nat) : string := str_of_int (Z.of_nat n).

(** [main()]: [init_reddit] runs outside any [try], so what it raises ends the
    run; the fetches are the decorated functions. *)
Definition main (remote : Remote) (environ secrets : gmap string string)
    (ui : Inputs) (now : Z) (st : AppState) : Result (list Element) * AppState :=
  match init_reddit environ secrets with
  | inl e => (raise e, st)
  | inr reddit =>
      if String.eqb (scrape_option ui) "Subreddit Posts" then
        if button ui then
          let '((df, errors), st') :=
            get_subreddit_posts_cached remote reddit (subreddit_name_input ui)
              (post_limit_input ui) (time_filter_input ui) now st in
          (ret ([st_title "Reddit Data Scraper"; st_header "Subreddit Posts Scraper"]
                ++ map st_error errors
                ++ [st_success ("Successfully scraped " +:+ str_of_len (len df) +:+ " posts!");
                    st_dataframe df;
                    st_download_button "Download CSV" (encode_utf8 (to_csv df))
                      (subreddit_name_input ui +:+ "_posts.csv") "text/csv" "download-csv"]),
           st')
        else (ret [st_title "Reddit Data Scraper"; st_header "Subreddit Posts Scraper"], st)
      else
        if button ui then
          let '(((post_df, comments_df), errors), st') :=
            get_post_by_url_cached remote reddit (post_url_input ui) now st in
          (ret ([st_title "Reddit Data Scraper"; st_header "Post URL Scraper"]
                ++ map st_error errors
                ++ [st_subheader "Post Details";
                    st_dataframe post_df;
                    st_subheader ("Comments (" +:+ str_of_len (len comments_df) +:+ " total)");
                    st_dataframe comments_df;
                    st_download_button "Download Post CSV" (encode_utf8 (to_csv post_df))
                      "post_details.csv" "text/csv" "download-post";
                    st_download_button "Download Comments CSV"
                      (encode_utf8 (to_csv comments_df))
                      "comments.csv" "text/csv" "download-comments"]),
           st')
        else (ret [st_title "Reddit Data Scraper"; st_header "Post URL Scraper"], st)
  end.

(** ** Vocabulary of the properties *)

Definition post_columns : list string :=
  ["Title"; "Post Text"; "ID"; "Score"; "Total Comments"; "Post URL"].

Definition comment_columns : list string :=
  ["Comment Text"; "Score"; "Author"; "Created UTC"].

Definition credential_names : list string :=
  ["REDDIT_CLIENT_ID"; "REDDIT_CLIENT_SECRET"; "REDDIT_USER_AGENT"].

(** The text a reader of the export is to find for a value: a string as it
    is, an integer as its decimal numeral, a float as its [repr], an account
    as its name, and nothing for a missing value ([None], NaN). *)
Definition value_text (v : PyVal) : string :=
  match v with
  | PyNone => EmptyString
  | PyStr s => s
  | PyInt z => str_of_int z
  | PyFloat r => if String.eqb r "nan" then EmptyString else r
  | PyRedditor name => name
  end.

(** Two post frames of one record that differ in one cell: a null body in
    the first, an empty body in the second. *)
Definition null_body_frame : DataFrame :=
  mkDataFrame post_columns
    [[PyStr "title"; PyNone; PyStr "t3_1"; PyInt 100; PyInt 0; PyStr "https://redd.it/1"]].

Definition empty_body_frame : DataFrame :=
  mkDataFrame post_columns
    [[PyStr "title"; PyStr EmptyString; PyStr "t3_1"; PyInt 100; PyInt 0;
      PyStr "https://redd.it/1"]].

(** The three names with the field of the session each one fills. *)
Definition credential_fields : list (string * (Reddit -> string)) :=
  [("REDDIT_CLIENT_ID", client_id); ("REDDIT_CLIENT_SECRET", client_secret);
   ("REDDIT_USER_AGENT", user_agent)].

(** The platform fails the listing: the generator raises at some point. *)
Definition top_fails (remote : Remote) r n name limit tf : Prop :=
  is_Some (listing_error (subreddit_top remote r n name limit tf)).

(** The platform fails the lookup by URL: resolving the submission raises, or
    expanding its comment tree does. *)
Definition url_fails (remote : Remote) r n url : Prop :=
  match submission_by_url remote r n url with
  | inl _ => True
  | inr s => match submission_comments s with inl _ => True | inr _ => False end
  end.

(** A platform on which every request raises. *)
Definition unreachable_remote : Remote :=
  mkRemote (fun _ _ _ _ _ => Raises (mkException "RequestException" "connection refused"))
           (fun _ _ _ => raise (mkException "RequestException" "connection refused")).

Definition test_reddit : Reddit := mkReddit "id" "secret" "agent".

Definition post_attrs : list string :=
  ["title"; "selftext"; "id"; "score"; "num_comments"; "url"].

Definition comment_attr_names : list string :=
  ["body"; "score"; "author"; "created_utc"].

(** The object carries every attribute of [names]. *)
Definition has_attrs (names : list string) (obj : gmap string PyVal) : bool :=
  forallb (fun name => match obj !! name with Some _ => true | None => false end) names.

(** The value of an attribute the object carries. *)
Definition attr (obj : gmap string PyVal) (name : string) : PyVal :=
  default PyNone (obj !! name).

(** The row a post contributes to the post table. *)
Definition post_row (post : gmap string PyVal) : list PyVal :=
  map (attr post) post_attrs.

(** The row a comment contributes to the comment table. *)
Definition comment_row (c : Comment) : list PyVal :=
  [attr (comment_attrs c) "body"; attr (comment_attrs c) "score";
   PyStr (str (attr (comment_attrs c) "author")); attr (comment_attrs c) "created_utc"].

Fixpoint index_of (x : string) (l : list string) : option nat :=
  match l with
  | [] => None
  | y :: l' => if String.eqb y x then Some O else S <$> index_of x l'
  end.

(** The cell of row [i] under the column labelled [col]. *)
Definition cell (df : DataFrame) (i : nat) (col : string) : option PyVal :=
  match data df !! i, index_of col (columns df) with
  | Some row, Some j => row !! j
  | _, _ => None
  end.

(** The generator that yields [items] and ends. *)
Definition listing_of (items : list (gmap string PyVal)) : Listing :=
  fold_right Yield Exhausted items.

Definition synthetic_post (i : Z) (score : Z) : gmap string PyVal :=
  {[ "title" := PyStr ("post " +:+ str_of_int i);
     "selftext" := PyStr "text";
     "id" := PyStr ("t3_" +:+ str_of_int i);
     "score" := PyInt score;
     "num_comments" := PyInt 0;
     "url" := PyStr ("https://redd.it/" +:+ str_of_int i) ]}.

Definition synthetic_posts : list (gmap string PyVal) :=
  [synthetic_post 1 100; synthetic_post 2 90; synthetic_post 3 80;
   synthetic_post 4 70; synthetic_post 5 60].

Definition synthetic_comment (body : string) (author : PyVal) (replies : list Comment)
  : Comment :=
  mkComment {[ "body" := PyStr body; "score" := PyInt 1; "author" := author;
               "created_utc" := PyFloat "1700000000.0" ]} replies.

(** A stub platform: the top listing is the first [limit] synthetic posts, a
    URL resolves to the first synthetic post with the comments given. *)
Definition stub_remote (forest : list Comment) : Remote :=
  mkRemote (fun _ _ _ limit _ => listing_of (take (Z.to_nat limit) synthetic_posts))
           (fun _ _ _ => ret (mkSubmission (synthetic_post 1 100) (ret forest))).

(** The dict of six columns the loop of [get_subreddit_posts] works on. *)
Abbreviation six_columns a1 a2 a3 a4 a5 a6 :=
  [("Title", a1); ("Post Text", a2); ("ID", a3); ("Score", a4);
   ("Total Comments", a5); ("Post URL", a6)].

(** The listing ran to its end and every item had the six attributes. *)
Definition listing_ok (l : Listing) : bool :=
  match listing_error l with
  | Some _ => false
  | None => forallb (has_attrs post_attrs) (listing_items l)
  end.

(** The record [get_post_by_url] builds for a comment, its attributes read. *)
Definition comment_record (c : Comment) : list (string * PyVal) :=
  [("Comment Text", attr (comment_attrs c) "body");
   ("Score", attr (comment_attrs c) "score");
   ("Author", PyStr (str (attr (comment_attrs c) "author")));
   ("Created UTC", attr (comment_attrs c) "created_utc")].

(** Every comment carries the four attributes the loop reads. *)
Definition comments_ok (comments : list Comment) : bool :=
  forallb (fun c => has_attrs comment_attr_names (comment_attrs c)) comments.

(** The lookup by URL went through: the submission resolved and carries the
    six attributes, its comment tree expanded, and every comment of the
    flattened tree carries the four attributes. *)
Definition url_ok (remote : Remote) (r : Reddit) (n : nat) (url : string) : bool :=
  match submission_by_url remote r n url with
  | inl _ => false
  | inr s =>
      has_attrs post_attrs (submission_attrs s)
      && match submission_comments s with
         | inl _ => false
         | inr forest => comments_ok (comments_list forest)
         end
  end.



(** A stub platform whose ranking moves: request number [n] finds the
    synthetic posts without the first [n] of them. *)
Definition changing_remote : Remote :=
  mkRemote (fun _ n _ limit _ => listing_of (take (Z.to_nat limit) (drop n synthetic_posts)))
           (fun _ _ _ => ret (mkSubmission (synthetic_post 1 100) (ret []))).

Definition other_reddit : Reddit := mkReddit "id2" "secret2" "agent2".

(** The platform yields at most [limit] items when asked for [limit], for
    the limits the slider allows. *)
Definition remote_bounded (remote : Remote) : Prop :=
  forall r n name limit tf,
    1 <= limit <= 100 ->
    Z.of_nat (length (listing_items (subreddit_top remote r n name limit tf))) <= limit.

(** Every stored post table holds at most as many rows as the limit it was
    asked with. *)
Definition posts_cache_bounded (st : AppState) : Prop :=
  forall name limit tf e,
    posts_cache st !! (name, limit, tf) = Some e ->
    1 <= limit <= 100 ->
    Z.of_nat (len (fst (entry_value e))) <= limit.

(** The states the process goes through: it starts with empty caches, and
    each user action is one call of a decorated function at some time. *)
Inductive reachable (remote : Remote) : AppState -> Prop :=
| reachable_init : reachable remote AppState_init
| reachable_posts st r name limit tf now :
    reachable remote st ->
    reachable remote (snd (get_subreddit_posts_cached remote r name limit tf now st))
| reachable_post st r url now :
    reachable remote st ->
    reachable remote (snd (get_post_by_url_cached remote r url now st)).

(** ** Vocabulary of the further properties *)

(** The generator that yields [items] and then raises [e]. *)
Definition listing_raising (items : list (gmap string PyVal)) (e : Exception) : Listing :=
  fold_right Yield (Raises e) items.

(** [x] is a comment of the tree under [c]: [c] itself, or a comment of the
    tree under one of the replies of [c]. *)
Inductive in_tree (x : Comment) : Comment -> Prop :=
| in_tree_root : in_tree x x
| in_tree_reply c r : In r (comment_replies c) -> in_tree x r -> in_tree x c.

(** [x] is a comment of the forest, at any depth. *)
Definition in_forest (x : Comment) (forest : list Comment) : Prop :=
  exists c, In c forest /\ in_tree x c.

(** A platform whose top listing breaks off after three posts. *)
Definition flaky_remote : Remote :=
  mkRemote (fun _ _ _ _ _ =>
              listing_raising (take 3 synthetic_posts)
                (mkException "ServerError" "received 503 HTTP response"))
           (fun _ _ _ => raise (mkException "ServerError" "received 503 HTTP response")).

(** A thread of three comments: two at the top, a reply under the first,
    written by an account that is gone. *)
Definition synthetic_forest : list Comment :=
  [synthetic_comment "first" (PyRedditor "alice")
     [synthetic_comment "reply" PyNone []];
   synthetic_comment "second" (PyRedditor "bob") []].

(** A thread in which a reply has no [body]. *)
Definition broken_forest : list Comment :=
  [synthetic_comment "first" (PyRedditor "alice")
     [mkComment {[ "score" := PyInt 1; "author" := PyNone;
                   "created_utc" := PyFloat "1700000000.0" ]} []]].

(** The name can be resolved: the environment has a truthy value for it, or
    the secret store holds it. *)
Definition resolvable (environ secrets : gmap string string) (name : string) : bool :=
  truthy (environ !! name)
  || match secrets !! name with Some _ => true | None => false end.

(** Lines 8-9 of the module: [load_dotenv()] runs when the working directory
    has a [.env].  [in_cwd] says whether it has one, [found] is the
    assignments of the file [load_dotenv] finds, if it finds one.  A variable
    the environment already has is left as it is. *)
Definition load_env (in_cwd : bool) (found : option (gmap string string))
    (environ : gmap string string) : gmap string string :=
  if in_cwd then
    match found with
    | Some file => environ ∪ file
    | None => environ
    end
  else environ.

(** The script runs again at every interaction: a series of runs, each with
    its widget values and its time, threads the process-wide state. *)
Fixpoint run_all (remote : Remote) (environ secrets : gmap string string)
    (runs : list (Inputs * Z)) (st : AppState) : AppState :=
  match runs with
  | [] => st
  | (ui, now) :: rest =>
      run_all remote environ secrets rest (snd (main remote environ secrets ui now st))
  end.

(** The runs in which the button of the mode was pressed. *)
Definition presses (runs : list (Inputs * Z)) : nat :=
  length (List.filter (fun run => button (fst run)) runs).

(** A platform that fails its first request and answers the later ones. *)
Definition recovering_remote : Remote :=
  mkRemote (fun _ n _ limit _ =>
              match n with
              | O => Raises (mkException "ServerError" "received 503 HTTP response")
              | S _ => listing_of (take (Z.to_nat limit) synthetic_posts)
              end)
           (fun _ n _ =>
              match n with
              | O => raise (mkException "ServerError" "received 503 HTTP response")
              | S _ => ret (mkSubmission (synthetic_post 1 100) (ret synthetic_forest))
              end).

Definition test_environ : gmap string string :=
  {["REDDIT_CLIENT_ID" := "id"; "REDDIT_CLIENT_SECRET" := "secret";
    "REDDIT_USER_AGENT" := "agent"]}.

Definition subreddit_inputs (pressed : bool) : Inputs :=
  mkInputs "Subreddit Posts" "testsub" 5 "week" EmptyString pressed.

Definition url_inputs (pressed : bool) : Inputs :=
  mkInputs "Specific Post by URL" "selfhosted" 10 "day" "https://redd.it/1" pressed.

(** The page of one run, empty when the run ended with an exception. *)
Definition page_of (run : Result (list Element) * AppState) : list Element :=
  match fst run with
  | inr page => page
  | inl _ => []
  end.

(** The frames a page displays, in page order. *)
Fixpoint frames_of (page : list Element) : list DataFrame :=
  match page with
  | [] => []
  | st_dataframe df :: rest => df :: frames_of rest
  | _ :: rest => frames_of rest
  end.

(** The downloads a page offers, in page order: label, file name, bytes. *)
Fixpoint downloads_of (page : list Element) : list (string * string * list Byte.byte) :=
  match page with
  | [] => []
  | st_download_button label bytes file_name _ _ :: rest =>
      (label, file_name, bytes) :: downloads_of rest
  | _ :: rest => downloads_of rest
  end.

(** * Properties *)

Example to_csv_quotes :
  to_csv (mkDataFrame ["Title"; "Score"] [[PyStr "a,b"; PyInt 7]; [PyNone; PyInt (-3)]])
  = "Title,Score" +:+ String LF (String dquote ("a,b" +:+ String dquote (",7" +:+ String LF
      (",-3" +:+ String LF EmptyString)))).
Proof. reflexivity. Qed.

Example read_csv_quotes :
  read_csv (encode_utf8
    (to_csv (mkDataFrame ["Title"; "Score"] [[PyStr "a,b"; PyInt 7]; [PyNone; PyInt (-3)]])))
  = Some [["Title"; "Score"]; ["a,b"; "7"]; [EmptyString; "-3"]].
Proof. reflexivity. Qed.

(** ** Failure of the remote call *)

Lemma collect_posts_raises l :
  is_Some (listing_error l) -> forall d, exists e, collect_posts l d = inl e.
Proof.
  induction l as [|post rest IH|e]; simpl; intros He d.
  - destruct He as [e He]. discriminate.
  - destruct (append_post post d) as [e|d'] eqn:Hp; simpl.
    + exists e. reflexivity.
    + apply IH. exact He.
  - exists e. reflexivity.
Qed.

Section FailureFacts.

Variable remote : Remote.

Lemma get_subreddit_posts_except r n name limit tf e :
  get_subreddit_posts_try remote r n name limit tf = inl e ->
  get_subreddit_posts remote r n name limit tf
  = (DataFrame_empty, ["Error fetching subreddit posts: " +:+ exc_msg e]).
Proof. unfold get_subreddit_posts. intros ->. reflexivity. Qed.

Lemma get_post_by_url_except r n url e :
  get_post_by_url_try remote r n url = inl e ->
  get_post_by_url remote r n url
  = ((DataFrame_empty, DataFrame_empty), ["Error fetching post: " +:+ exc_msg e]).
Proof. unfold get_post_by_url. intros ->. reflexivity. Qed.

Lemma top_fails_try r n name limit tf :
  top_fails remote r n name limit tf ->
  exists e, get_subreddit_posts_try remote r n name limit tf = inl e.
Proof.
  intros H. unfold get_subreddit_posts_try.
  destruct (collect_posts_raises _ H posts_dict_init) as [e He].
  exists e. rewrite He. reflexivity.
Qed.

Lemma url_fails_try r n url :
  url_fails remote r n url ->
  exists e, get_post_by_url_try remote r n url = inl e.
Proof.
  unfold url_fails, get_post_by_url_try.
  destruct (submission_by_url remote r n url) as [e|s]; simpl.
  - intros _. exists e. reflexivity.
  - destruct (post_data_of (submission_attrs s)) as [e|pd]; simpl.
    + intros _. exists e. reflexivity.
    + destruct (submission_comments s) as [e|forest]; simpl.
      * intros _. exists e. reflexivity.
      * intros [].
Qed.

End FailureFacts.

(** C1, amended.  When the remote call raises, [get_subreddit_posts] returns
    the empty frame and [get_post_by_url] returns two empty frames; the
    exception is not propagated, it is turned into one message shown with
    [st.error].  The frame returned is [pd.DataFrame()]: it has no rows and
    also no columns. *)
Theorem fetch_failure_returns_empty_frames (remote : Remote) (r : Reddit) (n : nat)
    (name : string) (limit : Z) (tf url : string) :
  (top_fails remote r n name limit tf ->
   exists msg, get_subreddit_posts remote r n name limit tf = (DataFrame_empty, [msg]))
  /\ (url_fails remote r n url ->
      exists msg, get_post_by_url remote r n url
                  = ((DataFrame_empty, DataFrame_empty), [msg]))
  /\ len DataFrame_empty = O /\ columns DataFrame_empty = [].
Proof.
  split; [|split; [|split; reflexivity]].
  - intros H. destruct (top_fails_try remote _ _ _ _ _ H) as [e He].
    eexists. apply get_subreddit_posts_except. exact He.
  - intros H. destruct (url_fails_try remote _ _ _ H) as [e He].
    eexists. apply get_post_by_url_except. exact He.
Qed.

(** C1 as stated fails: after a remote failure the frames returned do not
    carry the six post columns or the four comment columns. *)
Lemma fetch_failure_frames_lack_columns :
  top_fails unreachable_remote test_reddit 0 "testsub" 5 "week"
  /\ url_fails unreachable_remote test_reddit 0 "https://redd.it/abc"
  /\ columns (fst (get_subreddit_posts unreachable_remote test_reddit 0 "testsub" 5 "week"))
     <> post_columns
  /\ columns (fst (fst (get_post_by_url unreachable_remote test_reddit 0 "https://redd.it/abc")))
     <> post_columns
  /\ columns (snd (fst (get_post_by_url unreachable_remote test_reddit 0 "https://redd.it/abc")))
     <> comment_columns.
Proof.
  repeat split; try discriminate.
  eexists. reflexivity.
Qed.

Lemma fetch_failure_returns_empty_frames_witness :
  (exists msg, get_subreddit_posts unreachable_remote test_reddit 0 "testsub" 5 "week"
               = (DataFrame_empty, [msg]))
  /\ (exists msg, get_post_by_url unreachable_remote test_reddit 0 "https://redd.it/abc"
                  = ((DataFrame_empty, DataFrame_empty), [msg])).
Proof.
  destruct (fetch_failure_returns_empty_frames unreachable_remote test_reddit 0
              "testsub" 5 "week" "https://redd.it/abc") as (Htop & Hurl & _).
  split.
  - apply Htop. eexists. reflexivity.
  - apply Hurl. exact I.
Defined.

(** ** Credential resolution *)

Lemma environ_first environ secrets name v :
  environ !! name = Some v -> v <> EmptyString ->
  environ_or_secret environ secrets name = inr v.
Proof.
  intros Hv Hne. unfold environ_or_secret. rewrite Hv. simpl.
  destruct (String.eqb_spec v EmptyString) as [->|_]; [contradiction|reflexivity].
Qed.

Lemma secrets_second environ secrets name :
  truthy (environ !! name) = false ->
  environ_or_secret environ secrets name
  = match secrets !! name with Some v => inr v | None => inl (KeyError name) end.
Proof.
  intros Hf. unfold environ_or_secret. rewrite Hf.
  destruct (secrets !! name); reflexivity.
Qed.

Lemma init_reddit_raises environ secrets name :
  In name credential_names ->
  environ_or_secret environ secrets name = inl (KeyError name) ->
  exists name', In name' credential_names
                /\ init_reddit environ secrets = inl (KeyError name').
Proof.
  intros Hin Hr. unfold init_reddit.
  destruct (environ_or_secret environ secrets "REDDIT_CLIENT_ID") as [e1|v1] eqn:H1.
  - unfold environ_or_secret in H1.
    destruct (truthy _); [discriminate|].
    destruct (secrets !! _); [discriminate|]. injection H1 as <-.
    exists "REDDIT_CLIENT_ID". split; [simpl; tauto|reflexivity].
  - destruct (environ_or_secret environ secrets "REDDIT_CLIENT_SECRET") as [e2|v2] eqn:H2.
    + unfold environ_or_secret in H2.
      destruct (truthy _); [discriminate|].
      destruct (secrets !! _); [discriminate|]. injection H2 as <-.
      exists "REDDIT_CLIENT_SECRET". split; [simpl; tauto|reflexivity].
    + destruct (environ_or_secret environ secrets "REDDIT_USER_AGENT") as [e3|v3] eqn:H3.
      * unfold environ_or_secret in H3.
        destruct (truthy _); [discriminate|].
        destruct (secrets !! _); [discriminate|]. injection H3 as <-.
        exists "REDDIT_USER_AGENT". split; [simpl; tauto|reflexivity].
      * exfalso. simpl in Hin.
        destruct Hin as [<-|[<-|[<-|[]]]]; congruence.
Qed.

Lemma environ_or_secret_inr environ secrets name v :
  environ_or_secret environ secrets name = inr v ->
  (forall v', environ !! name = Some v' -> v' <> EmptyString -> v = v')
  /\ (truthy (environ !! name) = false -> secrets !! name = Some v).
Proof.
  unfold environ_or_secret. destruct (environ !! name) as [v0|]; cbn [truthy default].
  - destruct (String.eqb_spec v0 EmptyString) as [->|Hne]; cbn [negb].
    + destruct (secrets !! name) as [w|]; [|discriminate]. intros [= <-].
      split; [intros v' [= <-] Hv'; contradiction|reflexivity].
    + intros [= <-]. split; [intros v' [= <-] _; reflexivity|discriminate].
  - destruct (secrets !! name) as [w|]; [|discriminate]. intros [= <-].
    split; [discriminate|reflexivity].
Qed.

Lemma environ_or_secret_found environ secrets name :
  truthy (environ !! name) = true \/ is_Some (secrets !! name) ->
  exists v, environ_or_secret environ secrets name = inr v.
Proof.
  unfold environ_or_secret. intros [Ht|[w Hw]].
  - rewrite Ht. eauto.
  - destruct (truthy (environ !! name)); [eauto|]. rewrite Hw. eauto.
Qed.

(** C6.  The session [init_reddit] returns holds, for each of the three
    names, the value of the environment when the environment has a non-empty
    one, whatever the secret store holds, and the value of the secret store
    otherwise: the environment is consulted first, the store second.  A
    session is returned when every name is in one of the two sources.  When
    one of the three is in neither, [init_reddit] raises, and [main], which
    calls it outside any [try], ends with that exception. *)
Theorem init_reddit_credentials (environ secrets : gmap string string) :
  (forall reddit name field,
     init_reddit environ secrets = inr reddit ->
     In (name, field) credential_fields ->
     (forall v, environ !! name = Some v -> v <> EmptyString -> field reddit = v)
     /\ (truthy (environ !! name) = false -> secrets !! name = Some (field reddit)))
  /\ ((forall name, In name credential_names ->
         truthy (environ !! name) = true \/ is_Some (secrets !! name)) ->
      exists reddit, init_reddit environ secrets = inr reddit)
  /\ (forall name, In name credential_names ->
        environ !! name = None -> secrets !! name = None ->
        exists e, init_reddit environ secrets = inl e
                  /\ forall remote ui now st,
                       main remote environ secrets ui now st = (inl e, st)).
Proof.
  split; [|split].
  - intros reddit name field Hinit Hin. unfold init_reddit in Hinit.
    destruct (environ_or_secret environ secrets "REDDIT_CLIENT_ID") as [e1|v1] eqn:H1;
      [discriminate|].
    destruct (environ_or_secret environ secrets "REDDIT_CLIENT_SECRET") as [e2|v2] eqn:H2;
      [discriminate|].
    destruct (environ_or_secret environ secrets "REDDIT_USER_AGENT") as [e3|v3] eqn:H3;
      [discriminate|].
    cbn in Hinit. injection Hinit as <-.
    cbn in Hin. destruct Hin as [[= <- <-]|[[= <- <-]|[[= <- <-]|[]]]]; cbn.
    + exact (environ_or_secret_inr _ _ _ _ H1).
    + exact (environ_or_secret_inr _ _ _ _ H2).
    + exact (environ_or_secret_inr _ _ _ _ H3).
  - intros Hall. unfold init_reddit.
    destruct (environ_or_secret_found environ secrets "REDDIT_CLIENT_ID") as [v1 ->];
      [apply Hall; cbn; tauto|].
    destruct (environ_or_secret_found environ secrets "REDDIT_CLIENT_SECRET") as [v2 ->];
      [apply Hall; cbn; tauto|].
    destruct (environ_or_secret_found environ secrets "REDDIT_USER_AGENT") as [v3 ->];
      [apply Hall; cbn; tauto|].
    eexists. reflexivity.
  - intros name Hin He Hs.
    assert (Hr : environ_or_secret environ secrets name = inl (KeyError name)).
    { rewrite secrets_second by (rewrite He; reflexivity). rewrite Hs. reflexivity. }
    destruct (init_reddit_raises _ _ _ Hin Hr) as (name' & _ & Hinit).
    exists (KeyError name'). split; [exact Hinit|].
    intros remote ui now st. unfold main. rewrite Hinit. reflexivity.
Qed.

Lemma init_reddit_credentials_witness :
  (forall reddit,
     init_reddit {["REDDIT_CLIENT_ID" := "env-id"; "REDDIT_USER_AGENT" := EmptyString]}
       {["REDDIT_CLIENT_ID" := "store-id"; "REDDIT_CLIENT_SECRET" := "store-secret";
         "REDDIT_USER_AGENT" := "store-agent"]} = inr reddit ->
     client_id reddit = "env-id")
  /\ (exists reddit,
        init_reddit {["REDDIT_CLIENT_ID" := "env-id"; "REDDIT_USER_AGENT" := EmptyString]}
          {["REDDIT_CLIENT_ID" := "store-id"; "REDDIT_CLIENT_SECRET" := "store-secret";
            "REDDIT_USER_AGENT" := "store-agent"]} = inr reddit)
  /\ (exists e,
        init_reddit {["REDDIT_CLIENT_ID" := "abc"]} {["REDDIT_USER_AGENT" := "ua"]} = inl e).
Proof.
  destruct (init_reddit_credentials
              {["REDDIT_CLIENT_ID" := "env-id"; "REDDIT_USER_AGENT" := EmptyString]}
              {["REDDIT_CLIENT_ID" := "store-id"; "REDDIT_CLIENT_SECRET" := "store-secret";
                "REDDIT_USER_AGENT" := "store-agent"]}) as (Hfirst & Hsome & _).
  destruct (init_reddit_credentials {["REDDIT_CLIENT_ID" := "abc"]}
              {["REDDIT_USER_AGENT" := "ua"]}) as (_ & _ & Hnone).
  split; [|split].
  - intros reddit Hinit.
    apply (Hfirst reddit "REDDIT_CLIENT_ID" client_id Hinit); [cbn; tauto|reflexivity|].
    discriminate.
  - apply Hsome. intros name Hin. cbn in Hin.
    destruct Hin as [<-|[<-|[<-|[]]]];
      [left; reflexivity|right; eexists; reflexivity|right; eexists; reflexivity].
  - destruct (Hnone "REDDIT_CLIENT_SECRET") as (e & He & _);
      [cbn; tauto|reflexivity|reflexivity|].
    exists e. exact He.
Defined.

Example init_reddit_prefers_environ :
  init_reddit
    {["REDDIT_CLIENT_ID" := "env-id"; "REDDIT_CLIENT_SECRET" := "env-secret"]}
    {["REDDIT_CLIENT_ID" := "store-id"; "REDDIT_USER_AGENT" := "store-agent"]}
  = inr (mkReddit "env-id" "env-secret" "store-agent").
Proof. reflexivity. Qed.



(** ** The post table *)

(** One pass of the loop either raises, the post lacking an attribute, or
    extends each column by the post's value. *)
Lemma append_post_cases post a1 a2 a3 a4 a5 a6 :
  (has_attrs post_attrs post = false
   /\ exists e, append_post post (six_columns a1 a2 a3 a4 a5 a6) = inl e)
  \/ (has_attrs post_attrs post = true
      /\ append_post post (six_columns a1 a2 a3 a4 a5 a6)
         = inr (six_columns (a1 ++ [attr post "title"]) (a2 ++ [attr post "selftext"])
                  (a3 ++ [attr post "id"]) (a4 ++ [attr post "score"])
                  (a5 ++ [attr post "num_comments"]) (a6 ++ [attr post "url"]))).
Proof.
  unfold append_post, has_attrs, getattr, attr. simpl.
  destruct (post !! "title"); simpl; [|left; eauto].
  destruct (post !! "selftext"); simpl; [|left; eauto].
  destruct (post !! "id"); simpl; [|left; eauto].
  destruct (post !! "score"); simpl; [|left; eauto].
  destruct (post !! "num_comments"); simpl; [|left; eauto].
  destruct (post !! "url"); simpl; [|left; eauto].
  right. split; reflexivity.
Qed.

Lemma collect_posts_cases l : forall a1 a2 a3 a4 a5 a6,
  (listing_ok l = false
   /\ exists e, collect_posts l (six_columns a1 a2 a3 a4 a5 a6) = inl e)
  \/ (listing_ok l = true
      /\ collect_posts l (six_columns a1 a2 a3 a4 a5 a6)
         = inr (six_columns
                  (a1 ++ map (fun p => attr p "title") (listing_items l))
                  (a2 ++ map (fun p => attr p "selftext") (listing_items l))
                  (a3 ++ map (fun p => attr p "id") (listing_items l))
                  (a4 ++ map (fun p => attr p "score") (listing_items l))
                  (a5 ++ map (fun p => attr p "num_comments") (listing_items l))
                  (a6 ++ map (fun p => attr p "url") (listing_items l)))).
Proof.
  induction l as [|post rest IH|e]; intros a1 a2 a3 a4 a5 a6.
  - right. split; [reflexivity|]. simpl. rewrite !app_nil_r. reflexivity.
  - unfold listing_ok. cbn [listing_error listing_items forallb collect_posts].
    destruct (append_post_cases post a1 a2 a3 a4 a5 a6) as [[Hp [e He]]|[Hp He]];
      rewrite He, Hp; cbn [bind andb].
    + left. split; [destruct (listing_error rest); reflexivity|eauto].
    + destruct (IH (a1 ++ [attr post "title"]) (a2 ++ [attr post "selftext"])
                  (a3 ++ [attr post "id"]) (a4 ++ [attr post "score"])
                  (a5 ++ [attr post "num_comments"]) (a6 ++ [attr post "url"]))
        as [[Hr [e He']]|[Hr He']]; unfold listing_ok in Hr; rewrite He'.
      * left. split; [exact Hr|eauto].
      * right. split; [exact Hr|]. rewrite <- !app_assoc. reflexivity.
  - left. split; [reflexivity|]. simpl. eauto.
Qed.

Lemma rows_of_columns {A} (fs : list (A -> PyVal)) (items : list A) :
  rows_of (length items) (map (fun f => map f items) fs)
  = map (fun item => map (fun f => f item) fs) items.
Proof.
  induction items as [|item items IH]; simpl; [reflexivity|].
  rewrite !map_map. simpl. f_equal. exact IH.
Qed.

Lemma DataFrame_of_post_columns (items : list (gmap string PyVal)) :
  DataFrame_of_dict
    (six_columns (map (fun p => attr p "title") items)
       (map (fun p => attr p "selftext") items) (map (fun p => attr p "id") items)
       (map (fun p => attr p "score") items) (map (fun p => attr p "num_comments") items)
       (map (fun p => attr p "url") items))
  = inr (mkDataFrame post_columns (map post_row items)).
Proof.
  unfold DataFrame_of_dict. simpl. rewrite !length_map, Nat.eqb_refl. simpl.
  unfold ret. do 2 f_equal.
  exact (rows_of_columns
           [fun p => attr p "title"; fun p => attr p "selftext"; fun p => attr p "id";
            fun p => attr p "score"; fun p => attr p "num_comments";
            fun p => attr p "url"] items).
Qed.

Section PostTable.

Variable remote : Remote.

(** [get_subreddit_posts] has two outcomes: the empty frame with one message,
    or the frame of the rows of the items, in the order they were yielded. *)
Lemma get_subreddit_posts_cases r n name limit tf :
  let l := subreddit_top remote r n name limit tf in
  (listing_ok l = false
   /\ exists msg, get_subreddit_posts remote r n name limit tf = (DataFrame_empty, [msg]))
  \/ (listing_ok l = true
      /\ get_subreddit_posts remote r n name limit tf
         = (mkDataFrame post_columns (map post_row (listing_items l)), [])).
Proof.
  intros l. unfold get_subreddit_posts, get_subreddit_posts_try. fold l.
  destruct (collect_posts_cases l [] [] [] [] [] []) as [[Hl [e He]]|[Hl He]];
    unfold posts_dict_init; rewrite He; cbn [bind app].
  - left. split; [exact Hl|]. eauto.
  - right. split; [exact Hl|]. rewrite DataFrame_of_post_columns. reflexivity.
Qed.

Lemma get_subreddit_posts_len r n name limit tf :
  (len (fst (get_subreddit_posts remote r n name limit tf))
   <= length (listing_items (subreddit_top remote r n name limit tf)))%nat.
Proof.
  destruct (get_subreddit_posts_cases r n name limit tf) as [[_ [msg ->]]|[_ ->]].
  - unfold len. simpl. lia.
  - unfold len. simpl. rewrite length_map. lia.
Qed.

End PostTable.

(** C8.  When the generator runs to its end and every item it yields carries
    the six post attributes, the frame has the six post columns and one row
    per item, row [i] holding the six values of item [i]: the order of the
    rows is the order in which the items were yielded. *)
Theorem get_subreddit_posts_preserves_order (remote : Remote) (r : Reddit) (n : nat)
    (name : string) (limit : Z) (tf : string) :
  listing_ok (subreddit_top remote r n name limit tf) = true ->
  let items := listing_items (subreddit_top remote r n name limit tf) in
  let df := fst (get_subreddit_posts remote r n name limit tf) in
  columns df = post_columns
  /\ data df = map post_row items
  /\ len df = length items
  /\ (forall i item, items !! i = Some item ->
        data df !! i = Some (post_row item)
        /\ length (post_row item) = 6%nat
        /\ cell df i "Score" = Some (attr item "score"))
  /\ snd (get_subreddit_posts remote r n name limit tf) = [].
Proof.
  intros Hok items df.
  destruct (get_subreddit_posts_cases remote r n name limit tf) as [[Hl _]|[_ Heq]];
    [congruence|].
  subst df. rewrite Heq. cbn [fst snd columns data]. fold items.
  split; [reflexivity|]. split; [reflexivity|].
  split; [unfold len; simpl; apply length_map|]. split; [|reflexivity].
  intros i item Hi.
  assert (Hrow : map post_row items !! i = Some (post_row item))
    by (rewrite list_lookup_fmap, Hi; reflexivity).
  split; [exact Hrow|]. split; [reflexivity|].
  unfold cell. cbn [data columns]. rewrite Hrow. reflexivity.
Qed.

Lemma get_subreddit_posts_preserves_order_witness :
  map (fun row => nth 3 row PyNone)
      (data (fst (get_subreddit_posts (stub_remote []) test_reddit 0 "testsub" 5 "week")))
  = [PyInt 100; PyInt 90; PyInt 80; PyInt 70; PyInt 60]
  /\ len (fst (get_subreddit_posts (stub_remote []) test_reddit 0 "testsub" 5 "week")) = 5%nat.
Proof.
  destruct (get_subreddit_posts_preserves_order (stub_remote []) test_reddit 0
              "testsub" 5 "week") as (_ & Hdata & Hlen & _).
  - vm_compute. reflexivity.
  - split.
    + rewrite Hdata. vm_compute. reflexivity.
    + rewrite Hlen. vm_compute. reflexivity.
Defined.

(** C3.  For a limit between 1 and 100 and a window of the select box, the
    frame has at most [limit] rows, provided the generator yields at most
    [limit] items. *)
Theorem get_subreddit_posts_within_limit (remote : Remote) (r : Reddit) (n : nat)
    (name : string) (limit : Z) (tf : string) :
  1 <= limit <= 100 ->
  In tf time_filters ->
  Z.of_nat (length (listing_items (subreddit_top remote r n name limit tf))) <= limit ->
  Z.of_nat (len (fst (get_subreddit_posts remote r n name limit tf))) <= limit.
Proof.
  intros _ _ Hremote.
  pose proof (get_subreddit_posts_len remote r n name limit tf). lia.
Qed.

Lemma get_subreddit_posts_within_limit_witness :
  Z.of_nat (len (fst (get_subreddit_posts (stub_remote []) test_reddit 0 "testsub" 3 "week")))
  <= 3.
Proof.
  apply (get_subreddit_posts_within_limit (stub_remote []) test_reddit 0 "testsub" 3 "week").
  - lia.
  - simpl. tauto.
  - vm_compute. discriminate.
Defined.

(** ** The post and comment tables of a lookup by URL *)

Lemma post_data_of_cases obj :
  (has_attrs post_attrs obj = false /\ exists e, post_data_of obj = inl e)
  \/ (has_attrs post_attrs obj = true
      /\ post_data_of obj
         = inr [("Title", attr obj "title"); ("Post Text", attr obj "selftext");
                ("ID", attr obj "id"); ("Score", attr obj "score");
                ("Total Comments", attr obj "num_comments"); ("Post URL", attr obj "url")]).
Proof.
  unfold post_data_of, has_attrs, getattr, attr. simpl.
  destruct (obj !! "title"); simpl; [|left; eauto].
  destruct (obj !! "selftext"); simpl; [|left; eauto].
  destruct (obj !! "id"); simpl; [|left; eauto].
  destruct (obj !! "score"); simpl; [|left; eauto].
  destruct (obj !! "num_comments"); simpl; [|left; eauto].
  destruct (obj !! "url"); simpl; [|left; eauto].
  right. split; reflexivity.
Qed.

Lemma comment_data_of_cases c :
  (has_attrs comment_attr_names (comment_attrs c) = false
   /\ exists e, comment_data_of (comment_attrs c) = inl e)
  \/ (has_attrs comment_attr_names (comment_attrs c) = true
      /\ comment_data_of (comment_attrs c) = inr (comment_record c)).
Proof.
  unfold comment_data_of, comment_record, has_attrs, getattr, attr. simpl.
  destruct (comment_attrs c !! "body"); simpl; [|left; eauto].
  destruct (comment_attrs c !! "score"); simpl; [|left; eauto].
  destruct (comment_attrs c !! "author"); simpl; [|left; eauto].
  destruct (comment_attrs c !! "created_utc"); simpl; [|left; eauto].
  right. split; reflexivity.
Qed.

Lemma collect_comments_cases cs : forall acc,
  (comments_ok cs = false /\ exists e, collect_comments cs acc = inl e)
  \/ (comments_ok cs = true
      /\ collect_comments cs acc = inr (acc ++ map comment_record cs)).
Proof.
  induction cs as [|c cs IH]; intros acc.
  - right. split; [reflexivity|]. simpl. rewrite app_nil_r. reflexivity.
  - unfold comments_ok. cbn [forallb collect_comments].
    destruct (comment_data_of_cases c) as [[Hc [e He]]|[Hc He]];
      rewrite He, Hc; cbn [bind andb].
    + left. eauto.
    + destruct (IH (acc ++ [comment_record c])) as [[Hr [e He']]|[Hr He']];
        unfold comments_ok in Hr; rewrite He'.
      * left. eauto.
      * right. split; [exact Hr|]. rewrite <- app_assoc. reflexivity.
Qed.

Lemma comment_columns_stable cs :
  fold_left (fun acc r => add_keys acc (map fst r)) (map comment_record cs) comment_columns
  = comment_columns.
Proof. induction cs as [|c cs IH]; simpl; [reflexivity|exact IH]. Qed.

(** The frame of comment records: no columns when there is no comment, the
    four comment columns and one row per comment otherwise. *)
Lemma DataFrame_of_comment_records cs :
  DataFrame_of_records (map comment_record cs)
  = match cs with
    | [] => DataFrame_empty
    | _ => mkDataFrame comment_columns (map comment_row cs)
    end.
Proof.
  destruct cs as [|c cs]; [reflexivity|].
  unfold DataFrame_of_records. cbn [map fold_left].
  change (add_keys [] (map fst (comment_record c))) with comment_columns.
  rewrite comment_columns_stable. f_equal. f_equal.
  rewrite map_map. apply map_ext. intros c'. reflexivity.
Qed.

Section UrlTables.

Variable remote : Remote.

(** [get_post_by_url] has two outcomes: two empty frames with one message,
    or the one-row post frame and the frame of the flattened comments. *)
Lemma get_post_by_url_cases r n url :
  (url_ok remote r n url = false
   /\ exists msg, get_post_by_url remote r n url
                  = ((DataFrame_empty, DataFrame_empty), [msg]))
  \/ (url_ok remote r n url = true
      /\ exists s forest,
           submission_by_url remote r n url = inr s
           /\ submission_comments s = inr forest
           /\ get_post_by_url remote r n url
              = ((mkDataFrame post_columns [post_row (submission_attrs s)],
                  DataFrame_of_records (map comment_record (comments_list forest))), [])).
Proof.
  unfold url_ok, get_post_by_url, get_post_by_url_try.
  destruct (submission_by_url remote r n url) as [e|s]; cbn [bind].
  { left. eauto. }
  destruct (post_data_of_cases (submission_attrs s)) as [[Hp [e He]]|[Hp He]];
    rewrite He, Hp; cbn [bind andb].
  { left. eauto. }
  destruct (submission_comments s) as [e|forest] eqn:Hforest; cbn [bind].
  { left. eauto. }
  destruct (collect_comments_cases (comments_list forest) []) as [[Hc [e He']]|[Hc He']];
    rewrite He', Hc; cbn [bind app].
  { left. eauto. }
  right. split; [reflexivity|]. exists s, forest.
  split; [reflexivity|]. split; [exact Hforest|reflexivity].
Qed.

End UrlTables.

(** C4.  For a submission that resolves with its six attributes and whose
    expanded comment tree is empty, [get_post_by_url] shows no error and
    returns a post frame of exactly one row and a comment frame of no rows. *)
Theorem get_post_by_url_no_comments (remote : Remote) (r : Reddit) (n : nat)
    (url : string) (s : Submission) :
  submission_by_url remote r n url = inr s ->
  has_attrs post_attrs (submission_attrs s) = true ->
  submission_comments s = inr [] ->
  let post_df := fst (fst (get_post_by_url remote r n url)) in
  let comments_df := snd (fst (get_post_by_url remote r n url)) in
  len post_df = 1%nat
  /\ len comments_df = 0%nat
  /\ snd (get_post_by_url remote r n url) = []
  /\ post_df = mkDataFrame post_columns [post_row (submission_attrs s)].
Proof.
  intros Hs Hattrs Hc.
  destruct (get_post_by_url_cases remote r n url) as [[Hok _]|[_ (s' & forest & Hs' & Hc' & ->)]].
  - unfold url_ok in Hok. rewrite Hs, Hattrs, Hc in Hok. discriminate.
  - rewrite Hs in Hs'. injection Hs' as <-.
    rewrite Hc in Hc'. injection Hc' as <-.
    cbn. repeat split; reflexivity.
Qed.

Lemma get_post_by_url_no_comments_witness :
  len (fst (fst (get_post_by_url (stub_remote []) test_reddit 0 "https://redd.it/1"))) = 1%nat
  /\ len (snd (fst (get_post_by_url (stub_remote []) test_reddit 0 "https://redd.it/1"))) = 0%nat.
Proof.
  destruct (get_post_by_url_no_comments (stub_remote []) test_reddit 0 "https://redd.it/1"
              (mkSubmission (synthetic_post 1 100) (ret []))) as (H1 & H0 & _).
  - reflexivity.
  - vm_compute. reflexivity.
  - reflexivity.
  - split; [exact H1|exact H0].
Defined.

Lemma comment_frame_cell cs i c :
  cs !! i = Some c ->
  cell (DataFrame_of_records (map comment_record cs)) i "Author"
  = Some (PyStr (str (attr (comment_attrs c) "author"))).
Proof.
  intros Hi. rewrite DataFrame_of_comment_records.
  destruct cs as [|c0 cs]; [discriminate|].
  unfold cell. cbn [data columns].
  rewrite list_lookup_fmap, Hi. reflexivity.
Qed.

(** C5.  In a lookup that goes through, a comment whose author is null (the
    account is gone) has the string [None] in the Author column of its row:
    a placeholder that is neither the empty string nor a null. *)
Theorem deleted_author_placeholder (remote : Remote) (r : Reddit) (n : nat)
    (url : string) (s : Submission) (forest : list Comment) (i : nat) (c : Comment) :
  url_ok remote r n url = true ->
  submission_by_url remote r n url = inr s ->
  submission_comments s = inr forest ->
  comments_list forest !! i = Some c ->
  comment_attrs c !! "author" = Some PyNone ->
  let comments_df := snd (fst (get_post_by_url remote r n url)) in
  cell comments_df i "Author" = Some (PyStr "None")
  /\ PyStr "None" <> PyStr EmptyString
  /\ PyStr "None" <> PyNone.
Proof.
  intros Hok Hs Hc Hi Hauthor.
  destruct (get_post_by_url_cases remote r n url)
    as [[Hno _]|[_ (s' & forest' & Hs' & Hc' & ->)]]; [congruence|].
  rewrite Hs in Hs'. injection Hs' as <-.
  rewrite Hc in Hc'. injection Hc' as <-.
  cbn [fst snd]. split; [|split; discriminate].
  rewrite (comment_frame_cell _ _ _ Hi). unfold attr. rewrite Hauthor. reflexivity.
Qed.

Lemma deleted_author_placeholder_witness :
  cell (snd (fst (get_post_by_url
                    (stub_remote [synthetic_comment "first" (PyRedditor "alice") [];
                                  synthetic_comment "second" PyNone []])
                    test_reddit 0 "https://redd.it/1"))) 1 "Author"
  = Some (PyStr "None").
Proof.
  apply (deleted_author_placeholder
           (stub_remote [synthetic_comment "first" (PyRedditor "alice") [];
                         synthetic_comment "second" PyNone []])
           test_reddit 0 "https://redd.it/1"
           (mkSubmission (synthetic_post 1 100)
              (ret [synthetic_comment "first" (PyRedditor "alice") [];
                    synthetic_comment "second" PyNone []]))
           [synthetic_comment "first" (PyRedditor "alice") [];
            synthetic_comment "second" PyNone []]
           1 (synthetic_comment "second" PyNone [])).
  - vm_compute. reflexivity.
  - reflexivity.
  - reflexivity.
  - reflexivity.
  - vm_compute. reflexivity.
Defined.

(** ** Records and their attributes *)





(** ** Memoized calls *)

Lemma cache_live_store `{Countable K} {V} (cache : gmap K (CacheEntry V)) now now' key v :
  now' < now + ttl -> cache_live (cache_store cache now key v) now' key = Some v.
Proof.
  intros Hlt. unfold cache_live, cache_store. rewrite lookup_insert_eq. simpl.
  destruct (Z.ltb_spec now' (now + ttl)); [reflexivity|lia].
Qed.

Lemma cache_live_earlier `{Countable K} {V} (cache : gmap K (CacheEntry V)) t1 t2 key v :
  t1 <= t2 -> cache_live cache t2 key = Some v -> cache_live cache t1 key = Some v.
Proof.
  intros Hle. unfold cache_live. destruct (cache !! key) as [e|]; [|discriminate].
  destruct (Z.ltb_spec t2 (entry_expires e)); [|discriminate].
  intros [= <-]. destruct (Z.ltb_spec t1 (entry_expires e)); [reflexivity|lia].
Qed.

Section CachedCalls.

Variable remote : Remote.

Lemma get_subreddit_posts_cached_hit r name limit tf now st v :
  cache_live (posts_cache st) now (name, limit, tf) = Some v ->
  get_subreddit_posts_cached remote r name limit tf now st = (v, st).
Proof. unfold get_subreddit_posts_cached. intros ->. reflexivity. Qed.

Lemma get_subreddit_posts_cached_miss r name limit tf now st :
  cache_live (posts_cache st) now (name, limit, tf) = None ->
  get_subreddit_posts_cached remote r name limit tf now st
  = (get_subreddit_posts remote r (served st) name limit tf,
     mkAppState
       (cache_store (posts_cache st) now (name, limit, tf)
          (get_subreddit_posts remote r (served st) name limit tf))
       (post_cache st) (S (served st))).
Proof. unfold get_subreddit_posts_cached. intros ->. reflexivity. Qed.

End CachedCalls.

(** C2, amended.  Two calls with the same channel, limit and window, the
    second less than an hour after the first and possibly through another
    session, issue at most one remote call between them.  When the first call
    finds no live entry, it is the one that goes to the platform, and the
    second call returns the same contents without a remote call.  When the
    entry is still live at the second call, neither call goes to the platform
    and both return the stored contents. *)
Theorem cached_posts_within_ttl (remote : Remote) (r1 r2 : Reddit)
    (name : string) (limit : Z) (tf : string) (t1 t2 : Z) (st : AppState) :
  t1 <= t2 < t1 + 3600 ->
  let call1 := get_subreddit_posts_cached remote r1 name limit tf t1 st in
  let call2 := get_subreddit_posts_cached remote r2 name limit tf t2 (snd call1) in
  (served (snd call2) <= S (served st))%nat
  /\ (cache_live (posts_cache st) t1 (name, limit, tf) = None ->
      served (snd call1) = S (served st)
      /\ served (snd call2) = S (served st)
      /\ fst call2 = fst call1)
  /\ (forall v, cache_live (posts_cache st) t2 (name, limit, tf) = Some v ->
      served (snd call2) = served st /\ fst call1 = v /\ fst call2 = v).
Proof.
  intros [Hle Hlt] call1 call2.
  destruct (cache_live (posts_cache st) t1 (name, limit, tf)) as [v1|] eqn:Hlive1.
  - assert (Hcall1 : call1 = (v1, st))
      by (apply get_subreddit_posts_cached_hit; exact Hlive1).
    subst call2. rewrite Hcall1. cbn [fst snd].
    destruct (cache_live (posts_cache st) t2 (name, limit, tf)) as [v2|] eqn:Hlive2.
    + rewrite (get_subreddit_posts_cached_hit remote r2 _ _ _ _ _ _ Hlive2). cbn [fst snd].
      split; [lia|]. split; [discriminate|].
      intros v [= <-].
      rewrite (cache_live_earlier _ _ _ _ _ Hle Hlive2) in Hlive1.
      injection Hlive1 as <-. repeat split; reflexivity.
    + rewrite (get_subreddit_posts_cached_miss remote r2 _ _ _ _ _ Hlive2). cbn [fst snd served].
      split; [lia|]. split; discriminate.
  - assert (Hcall1 := get_subreddit_posts_cached_miss remote r1 _ _ _ _ _ Hlive1).
    fold call1 in Hcall1. subst call2. rewrite Hcall1. cbn [fst snd].
    rewrite (get_subreddit_posts_cached_hit remote r2 name limit tf t2 _
               (get_subreddit_posts remote r1 (served st) name limit tf))
      by (cbn [posts_cache]; apply cache_live_store; unfold ttl; lia).
    cbn [fst snd served]. split; [lia|]. split.
    + intros _. repeat split; reflexivity.
    + intros v Hlive2. rewrite (cache_live_earlier _ _ _ _ _ Hle Hlive2) in Hlive1.
      discriminate.
Qed.

Lemma cached_posts_within_ttl_witness :
  let call1 := get_subreddit_posts_cached changing_remote test_reddit
                 "testsub" 5 "week" 0 AppState_init in
  let call2 := get_subreddit_posts_cached changing_remote other_reddit
                 "testsub" 5 "week" 3599 (snd call1) in
  served (snd call2) = 1%nat /\ fst call2 = fst call1.
Proof.
  destruct (cached_posts_within_ttl changing_remote test_reddit other_reddit
              "testsub" 5 "week" 0 3599 AppState_init) as (_ & Hmiss & _).
  - lia.
  - destruct Hmiss as (_ & Hserved & Hsame).
    + reflexivity.
    + split; [exact Hserved|exact Hsame].
Defined.

(** C2 as stated fails: a first call at 0 fills the cache, a call at 3000 is
    answered from it, and a call at 4000, less than an hour after the call at
    3000 and with the same arguments, finds the entry expired, goes to the
    platform and returns other contents. *)
Lemma cached_posts_may_differ :
  let st0 := snd (get_subreddit_posts_cached changing_remote test_reddit
                    "testsub" 5 "week" 0 AppState_init) in
  let call1 := get_subreddit_posts_cached changing_remote test_reddit
                 "testsub" 5 "week" 3000 st0 in
  let call2 := get_subreddit_posts_cached changing_remote test_reddit
                 "testsub" 5 "week" 4000 (snd call1) in
  3000 <= 4000 < 3000 + 3600
  /\ fst call1 <> fst call2.
Proof.
  split; [lia|].
  intros Heq. apply (f_equal (fun v => len (fst v))) in Heq.
  vm_compute in Heq. discriminate.
Qed.

(** ** Export and parsing back *)

Lemma append_cons (c : ascii) (s s' : string) : String c s +:+ s' = String c (s +:+ s').
Proof. reflexivity. Qed.

Lemma append_nil_l (s : string) : EmptyString +:+ s = s.
Proof. reflexivity. Qed.

Lemma append_nil_r (s : string) : s +:+ EmptyString = s.
Proof.
  induction s as [|c s IH]; [reflexivity|]. rewrite append_cons, IH. reflexivity.
Qed.

Lemma append_assoc (s1 s2 s3 : string) : (s1 +:+ s2) +:+ s3 = s1 +:+ (s2 +:+ s3).
Proof.
  induction s1 as [|c s1 IH]; [reflexivity|]. rewrite !append_cons, IH. reflexivity.
Qed.

Lemma snoc_append (s : string) (c : ascii) (s' : string) :
  snoc s c +:+ s' = s +:+ String c s'.
Proof. unfold snoc. rewrite append_assoc. reflexivity. Qed.

Lemma special_false c :
  special c = false ->
  Ascii.eqb c comma = false /\ Ascii.eqb c dquote = false /\ Ascii.eqb c LF = false.
Proof.
  unfold special. intros H.
  destruct (Ascii.eqb c comma); [discriminate|].
  destruct (Ascii.eqb c dquote); [discriminate|].
  destruct (Ascii.eqb c LF); [discriminate|]. repeat split.
Qed.

(** An unquoted field is read character by character up to its end. *)
Lemma reader_unquoted s : forall field fields rest,
  needs_quoting s = false ->
  reader IN_FIELD field fields (s +:+ rest) = reader IN_FIELD (field +:+ s) fields rest.
Proof.
  induction s as [|c s IH]; intros field fields rest Hq.
  - rewrite append_nil_r. reflexivity.
  - simpl in Hq. apply orb_false_elim in Hq as [Hc Hs].
    destruct (special_false c Hc) as (Hcomma & _ & Hlf).
    rewrite !append_cons. cbn [reader]. unfold process_char. rewrite Hlf, Hcomma.
    rewrite IH by exact Hs. rewrite snoc_append. reflexivity.
Qed.

(** Inside quotes, a doubled quote is read as one quote and the closing quote
    leaves the field. *)
Lemma reader_quoted s : forall field fields rest,
  reader IN_QUOTED_FIELD field fields (double_quotes s +:+ String dquote rest)
  = reader QUOTE_IN_QUOTED_FIELD (field +:+ s) fields rest.
Proof.
  induction s as [|c s IH]; intros field fields rest.
  - rewrite append_nil_r. reflexivity.
  - cbn [double_quotes]. destruct (Ascii.eqb c dquote) eqn:Hc.
    + apply Ascii.eqb_eq in Hc. subst c.
      rewrite !append_cons. cbn [reader]. unfold process_char at 1. cbn [Ascii.eqb].
      change (Ascii.eqb dquote dquote) with true. cbv iota.
      cbn [reader]. unfold process_char at 1.
      change (Ascii.eqb dquote dquote) with true. cbv iota.
      rewrite IH, snoc_append. reflexivity.
    + rewrite !append_cons. cbn [reader]. unfold process_char at 1. rewrite Hc.
      rewrite IH, snoc_append. reflexivity.
Qed.

Lemma reader_field_comma f fields rest :
  reader START_FIELD EmptyString fields (csv_field f +:+ String comma rest)
  = reader START_FIELD EmptyString (fields ++ [f]) rest.
Proof.
  unfold csv_field. destruct (needs_quoting f) eqn:Hq.
  - rewrite !append_cons. cbn [reader]. unfold process_char at 1.
    change (Ascii.eqb dquote LF) with false. change (Ascii.eqb dquote dquote) with true.
    cbv iota. rewrite append_assoc, append_cons, append_nil_l.
    rewrite reader_quoted. reflexivity.
  - destruct f as [|c f].
    + reflexivity.
    + simpl in Hq. apply orb_false_elim in Hq as [Hc Hf].
      destruct (special_false c Hc) as (Hcomma & Hdq & Hlf).
      rewrite !append_cons. cbn [reader]. unfold process_char at 1. rewrite Hlf, Hdq, Hcomma.
      rewrite reader_unquoted by exact Hf. reflexivity.
Qed.

Lemma reader_field_LF f fields rest :
  reader START_FIELD EmptyString fields (csv_field f +:+ String LF rest)
  = cons (fields ++ [f]) <$> reader START_RECORD EmptyString [] rest.
Proof.
  unfold csv_field. destruct (needs_quoting f) eqn:Hq.
  - rewrite !append_cons. cbn [reader]. unfold process_char at 1.
    change (Ascii.eqb dquote LF) with false. change (Ascii.eqb dquote dquote) with true.
    cbv iota. rewrite append_assoc, append_cons, append_nil_l.
    rewrite reader_quoted. reflexivity.
  - destruct f as [|c f].
    + reflexivity.
    + simpl in Hq. apply orb_false_elim in Hq as [Hc Hf].
      destruct (special_false c Hc) as (Hcomma & Hdq & Hlf).
      rewrite !append_cons. cbn [reader]. unfold process_char at 1. rewrite Hlf, Hdq, Hcomma.
      rewrite reader_unquoted by exact Hf. reflexivity.
Qed.

(** A row of at least one field, read from the start of a field. *)
Lemma reader_fields fs : forall fields rest,
  fs <> [] ->
  reader START_FIELD EmptyString fields (csv_join (map csv_field fs) +:+ String LF rest)
  = cons (fields ++ fs) <$> reader START_RECORD EmptyString [] rest.
Proof.
  induction fs as [|f fs IH]; intros fields rest Hne; [contradiction|].
  destruct fs as [|f2 fs].
  - cbn [map csv_join]. apply reader_field_LF.
  - change (csv_join (map csv_field (f :: f2 :: fs)))
      with (csv_field f +:+ String comma (csv_join (map csv_field (f2 :: fs)))).
    rewrite append_assoc, append_cons.
    rewrite reader_field_comma. rewrite IH by discriminate.
    rewrite <- app_assoc. reflexivity.
Qed.

(** What a row that is not a lone empty field starts with is not a line
    end, so the reader leaves the start of the record for the start of a
    field. *)
Lemma reader_start_record c s :
  Ascii.eqb c LF = false ->
  reader START_RECORD EmptyString [] (String c s)
  = reader START_FIELD EmptyString [] (String c s).
Proof. intros Hc. cbn [reader]. unfold process_char. rewrite Hc. reflexivity. Qed.

Lemma csv_field_head f :
  (f = EmptyString /\ csv_field f = EmptyString)
  \/ exists c s, csv_field f = String c s /\ Ascii.eqb c LF = false.
Proof.
  unfold csv_field. destruct (needs_quoting f) eqn:Hq.
  - right. eexists _, _. split; reflexivity.
  - destruct f as [|c f]; [left; split; reflexivity|].
    right. simpl in Hq. apply orb_false_elim in Hq as [Hc _].
    exists c, f. split; [reflexivity|]. apply (special_false c Hc).
Qed.

Lemma csv_row_join fs :
  fs <> [EmptyString] ->
  csv_row fs = csv_join (map csv_field fs) +:+ String LF EmptyString.
Proof.
  intros Hlone. destruct fs as [|f fs]; [reflexivity|].
  destruct f, fs; try reflexivity. contradiction.
Qed.

(** Reading a written row gives the row back and leaves the reader at the
    start of a record. *)
Lemma reader_row fs rest :
  reader START_RECORD EmptyString [] (csv_row fs +:+ rest)
  = cons fs <$> reader START_RECORD EmptyString [] rest.
Proof.
  destruct (decide (fs = [EmptyString])) as [->|Hlone]; [reflexivity|].
  rewrite csv_row_join by exact Hlone.
  destruct fs as [|f fs]; [reflexivity|].
  rewrite append_assoc, append_cons, append_nil_l.
  assert (Hhead : exists c s,
            csv_join (map csv_field (f :: fs)) +:+ String LF rest = String c s
            /\ Ascii.eqb c LF = false).
  { destruct (csv_field_head f) as [[-> Hf]|(c & s & Hf & Hc)].
    - destruct fs as [|f2 fs]; [contradiction|].
      change (csv_join (map csv_field (EmptyString :: f2 :: fs)))
        with (csv_field EmptyString +:+ String comma (csv_join (map csv_field (f2 :: fs)))).
      rewrite Hf, append_nil_l, append_cons. eexists _, _. split; reflexivity.
    - destruct fs as [|f2 fs].
      + cbn [map csv_join]. rewrite Hf, append_cons. eexists _, _. split; [reflexivity|exact Hc].
      + change (csv_join (map csv_field (f :: f2 :: fs)))
          with (csv_field f +:+ String comma (csv_join (map csv_field (f2 :: fs)))).
        rewrite Hf, !append_cons. eexists _, _. split; [reflexivity|exact Hc]. }
  destruct Hhead as (c & s & Heq & Hc).
  rewrite Heq, (reader_start_record c s Hc), <- Heq.
  rewrite reader_fields by discriminate. reflexivity.
Qed.

Lemma reader_lines rows :
  reader START_RECORD EmptyString [] (csv_lines rows) = Some rows.
Proof.
  induction rows as [|r rows IH]; [reflexivity|].
  cbn [csv_lines]. rewrite reader_row, IH. reflexivity.
Qed.

Lemma needs_quoting_In c s :
  special c = true -> In c (list_ascii_of_string s) -> needs_quoting s = true.
Proof.
  intros Hc. induction s as [|c' s IH]; simpl; [intros []|].
  intros [->|Hin]; [rewrite Hc; reflexivity|].
  rewrite (IH Hin). apply orb_true_r.
Qed.

Lemma cell_text_value_text v : cell_text v = value_text v.
Proof. destruct v; reflexivity. Qed.

Lemma read_csv_value_text df :
  read_csv (encode_utf8 (to_csv df)) = Some (columns df :: map (map value_text) (data df)).
Proof.
  unfold read_csv, encode_utf8, decode_utf8, to_csv.
  rewrite string_of_list_byte_of_string, reader_lines. do 2 f_equal.
  apply map_ext. intros row. apply map_ext, cell_text_value_text.
Qed.

(** C7, amended.  The bytes exported for a frame, parsed back, are the header
    row of the column labels followed by one row per record, so the row count
    survives, and each parsed cell is the text of the value that was in the
    frame: a string comes back as itself, an integer as its numeral, a
    missing value as the empty string.  The type of a value does not come
    back.  A value that holds a comma or a line end is written inside
    quotes. *)
Theorem to_csv_round_trip (df : DataFrame) :
  read_csv (encode_utf8 (to_csv df))
  = Some (columns df :: map (map value_text) (data df))
  /\ (forall rows, read_csv (encode_utf8 (to_csv df)) = Some rows ->
        length rows = S (len df))
  /\ (forall i row j s, data df !! i = Some row -> row !! j = Some (PyStr s) ->
        exists rows parsed,
          read_csv (encode_utf8 (to_csv df)) = Some rows
          /\ rows !! S i = Some parsed /\ parsed !! j = Some s)
  /\ (forall s, In comma (list_ascii_of_string s) \/ In LF (list_ascii_of_string s) ->
        csv_field s = String dquote (double_quotes s +:+ String dquote EmptyString)).
Proof.
  pose proof (read_csv_value_text df) as Hread.
  split; [exact Hread|]. split; [|split].
  - intros rows. rewrite Hread. intros [= <-].
    cbn [length]. rewrite length_map. reflexivity.
  - intros i row j s Hrow Hcell.
    exists (columns df :: map (map value_text) (data df)), (map value_text row).
    split; [exact Hread|]. split.
    + change (map (map value_text) (data df) !! i = Some (map value_text row)).
      rewrite list_lookup_fmap, Hrow. reflexivity.
    + rewrite list_lookup_fmap, Hcell. reflexivity.
  - intros s Hs. unfold csv_field.
    rewrite (match Hs with
             | or_introl H => needs_quoting_In comma s eq_refl H
             | or_intror H => needs_quoting_In LF s eq_refl H
             end).
    reflexivity.
Qed.

Lemma to_csv_round_trip_witness :
  read_csv (encode_utf8
    (to_csv (mkDataFrame ["Comment Text"; "Score"; "Author"]
               [[PyStr ("one, two" +:+ String LF "three"); PyInt 100; PyStr "None"];
                [PyStr "plain"; PyInt (-3); PyNone]])))
  = Some [["Comment Text"; "Score"; "Author"];
          ["one, two" +:+ String LF "three"; "100"; "None"];
          ["plain"; "-3"; EmptyString]]
  /\ csv_field "one, two"
     = String dquote (double_quotes "one, two" +:+ String dquote EmptyString).
Proof.
  destruct (to_csv_round_trip
              (mkDataFrame ["Comment Text"; "Score"; "Author"]
                 [[PyStr ("one, two" +:+ String LF "three"); PyInt 100; PyStr "None"];
                  [PyStr "plain"; PyInt (-3); PyNone]]))
    as (Hread & _ & _ & Hquote).
  split.
  - rewrite Hread. reflexivity.
  - apply Hquote. left. simpl. tauto.
Defined.

(** C7 as stated fails: a frame with a null body and a frame with an empty
    body are exported to the same bytes, so no parser gives back the value of
    every cell of every frame; the reader finds the empty string where the
    null was. *)
Lemma to_csv_loses_cell_types :
  null_body_frame <> empty_body_frame
  /\ to_csv null_body_frame = to_csv empty_body_frame
  /\ read_csv (encode_utf8 (to_csv null_body_frame))
     = Some [post_columns;
             ["title"; EmptyString; "t3_1"; "100"; "0"; "https://redd.it/1"]]
  /\ ~ (exists parse : list Byte.byte -> option DataFrame,
          forall df, parse (encode_utf8 (to_csv df)) = Some df).
Proof.
  split; [discriminate|]. split; [reflexivity|]. split; [reflexivity|].
  intros [parse Hparse].
  pose proof (Hparse null_body_frame) as H1.
  pose proof (Hparse empty_body_frame) as H2.
  change (to_csv empty_body_frame) with (to_csv null_body_frame) in H2.
  rewrite H1 in H2. discriminate.
Qed.

(** ** The flattened comment tree *)

Lemma forest_nodes_app f1 f2 :
  forest_nodes (f1 ++ f2) = (forest_nodes f1 + forest_nodes f2)%nat.
Proof.
  unfold forest_nodes. induction f1 as [|c f1 IH]; simpl; [reflexivity|].
  rewrite IH. lia.
Qed.

(** The fuel of [comments_list] is enough: the loop puts out every comment of
    the tree, once. *)
Lemma comments_bfs_length fuel : forall queue,
  (forest_nodes queue <= fuel)%nat ->
  length (comments_bfs fuel queue) = forest_nodes queue.
Proof.
  induction fuel as [|k IH]; intros [|[attrs replies] queue] Hfuel; try reflexivity.
  - change (forest_nodes (mkComment attrs replies :: queue))
      with (S (forest_nodes replies) + forest_nodes queue)%nat in Hfuel. lia.
  - change (forest_nodes (mkComment attrs replies :: queue))
      with (S (forest_nodes replies) + forest_nodes queue)%nat in *.
    cbn [comments_bfs comment_replies length].
    rewrite IH; rewrite forest_nodes_app; lia.
Qed.

Lemma comments_list_length forest :
  length (comments_list forest) = forest_nodes forest.
Proof. apply comments_bfs_length. lia. Qed.

(** ** The row bound across the cache *)

Section CacheInvariant.

Variable remote : Remote.
Hypothesis Hremote : remote_bounded remote.

Lemma cache_live_lookup `{Countable K} {V} (cache : gmap K (CacheEntry V)) now key v :
  cache_live cache now key = Some v ->
  exists e, cache !! key = Some e /\ entry_value e = v.
Proof.
  unfold cache_live. destruct (cache !! key) as [e|]; [|discriminate].
  destruct (now <? entry_expires e); [|discriminate].
  intros [= <-]. eauto.
Qed.

Lemma get_subreddit_posts_bounded r n name limit tf :
  1 <= limit <= 100 ->
  Z.of_nat (len (fst (get_subreddit_posts remote r n name limit tf))) <= limit.
Proof.
  intros Hlimit. pose proof (Hremote r n name limit tf Hlimit).
  pose proof (get_subreddit_posts_len remote r n name limit tf). lia.
Qed.

(** A decorated call keeps the bound on the stored tables, and what it
    returns obeys it, whether it comes from the cache or from the platform. *)
Lemma get_subreddit_posts_cached_bounded r name limit tf now st :
  posts_cache_bounded st ->
  posts_cache_bounded (snd (get_subreddit_posts_cached remote r name limit tf now st))
  /\ (1 <= limit <= 100 ->
      Z.of_nat (len (fst (fst (get_subreddit_posts_cached remote r name limit tf now st))))
      <= limit).
Proof.
  intros Hst.
  destruct (cache_live (posts_cache st) now (name, limit, tf)) as [v|] eqn:Hlive.
  - rewrite (get_subreddit_posts_cached_hit remote r _ _ _ _ _ _ Hlive). cbn [fst snd].
    split; [exact Hst|]. intros Hlimit.
    destruct (cache_live_lookup _ _ _ _ Hlive) as (e & He & <-).
    exact (Hst _ _ _ _ He Hlimit).
  - rewrite (get_subreddit_posts_cached_miss remote r _ _ _ _ _ Hlive). cbn [fst snd].
    split; [|apply get_subreddit_posts_bounded].
    intros name' limit' tf' e. cbn [posts_cache]. unfold cache_store.
    destruct (decide ((name, limit, tf) = (name', limit', tf'))) as [[= <- <- <-]|Hne].
    + rewrite lookup_insert_eq. intros [= <-]. cbn [entry_value].
      apply get_subreddit_posts_bounded.
    + rewrite lookup_insert_ne by exact Hne. apply Hst.
Qed.

Lemma reachable_bounded st : reachable remote st -> posts_cache_bounded st.
Proof.
  induction 1 as [|st r name limit tf now _ IH|st r url now _ IH].
  - intros name limit tf e He. cbn in He. rewrite lookup_empty in He. discriminate.
  - apply get_subreddit_posts_cached_bounded. exact IH.
  - unfold get_post_by_url_cached. destruct (cache_live _ _ _); exact IH.
Qed.

(** In every state the process can be in, the decorated fetch returns at
    most [limit] rows. *)
Lemma reachable_posts_within_limit st r name limit tf now :
  reachable remote st ->
  1 <= limit <= 100 ->
  Z.of_nat (len (fst (fst (get_subreddit_posts_cached remote r name limit tf now st))))
  <= limit.
Proof.
  intros Hst. apply get_subreddit_posts_cached_bounded, reachable_bounded, Hst.
Qed.

End CacheInvariant.

(** * Further properties *)

(** ** The top listing: late failures and empty channels *)

Lemma collect_posts_listing_raising items e : forall a1 a2 a3 a4 a5 a6,
  forallb (has_attrs post_attrs) items = true ->
  collect_posts (listing_raising items e) (six_columns a1 a2 a3 a4 a5 a6) = inl e.
Proof.
  induction items as [|post items IH]; intros a1 a2 a3 a4 a5 a6 Hok; [reflexivity|].
  cbn [forallb] in Hok. apply andb_prop in Hok as [Hpost Hitems].
  cbn [listing_raising fold_right collect_posts].
  destruct (append_post_cases post a1 a2 a3 a4 a5 a6) as [[Hno _]|[_ ->]]; [congruence|].
  cbn [bind]. apply IH. exact Hitems.
Qed.

(** X1.  A listing that raises after yielding any number of well-formed
    posts leaves nothing of them: the frame is empty, and the one message
    shown carries the text of the exception the platform raised. *)
Theorem get_subreddit_posts_late_failure (remote : Remote) (r : Reddit) (n : nat)
    (name : string) (limit : Z) (tf : string)
    (items : list (gmap string PyVal)) (e : Exception) :
  subreddit_top remote r n name limit tf = listing_raising items e ->
  forallb (has_attrs post_attrs) items = true ->
  get_subreddit_posts remote r n name limit tf
  = (DataFrame_empty, ["Error fetching subreddit posts: " +:+ exc_msg e]).
Proof.
  intros Hl Hok. apply get_subreddit_posts_except.
  unfold get_subreddit_posts_try. rewrite Hl. unfold posts_dict_init.
  rewrite collect_posts_listing_raising by exact Hok. reflexivity.
Qed.

Lemma get_subreddit_posts_late_failure_witness :
  get_subreddit_posts flaky_remote test_reddit 0 "testsub" 5 "week"
  = (DataFrame_empty, ["Error fetching subreddit posts: received 503 HTTP response"]).
Proof.
  apply (get_subreddit_posts_late_failure flaky_remote test_reddit 0 "testsub" 5 "week"
           (take 3 synthetic_posts)
           (mkException "ServerError" "received 503 HTTP response")).
  - reflexivity.
  - vm_compute. reflexivity.
Defined.

(** X2.  A channel without posts is not a failure: the frame has no rows but
    keeps its six columns, no message is shown, and the export is the header
    line alone; the frame of a failed fetch has no columns. *)
Theorem get_subreddit_posts_no_posts (remote : Remote) (r : Reddit) (n : nat)
    (name : string) (limit : Z) (tf : string) :
  subreddit_top remote r n name limit tf = Exhausted ->
  get_subreddit_posts remote r n name limit tf = (mkDataFrame post_columns [], [])
  /\ to_csv (fst (get_subreddit_posts remote r n name limit tf))
     = "Title,Post Text,ID,Score,Total Comments,Post URL" +:+ String LF EmptyString
  /\ fst (get_subreddit_posts remote r n name limit tf) <> DataFrame_empty.
Proof.
  intros Hl.
  assert (Heq : get_subreddit_posts remote r n name limit tf
                = (mkDataFrame post_columns [], [])).
  { unfold get_subreddit_posts, get_subreddit_posts_try. rewrite Hl. reflexivity. }
  rewrite Heq. split; [reflexivity|]. split; [reflexivity|discriminate].
Qed.

Lemma get_subreddit_posts_no_posts_witness :
  get_subreddit_posts (mkRemote (fun _ _ _ _ _ => Exhausted)
                         (fun _ _ _ => raise (mkException "NotFound" "404")))
    test_reddit 0 "emptysub" 10 "day"
  = (mkDataFrame post_columns [], []).
Proof.
  apply (get_subreddit_posts_no_posts
           (mkRemote (fun _ _ _ _ _ => Exhausted)
              (fun _ _ _ => raise (mkException "NotFound" "404")))
           test_reddit 0 "emptysub" 10 "day").
  reflexivity.
Defined.

(** ** The comment table: every comment of the tree, top level first *)

Lemma forest_nodes_cons c queue :
  forest_nodes (c :: queue)
  = (S (forest_nodes (comment_replies c)) + forest_nodes queue)%nat.
Proof. destruct c as [attrs replies]. reflexivity. Qed.

(** The queue the loop starts from comes out first, in its order. *)
Lemma comments_bfs_prefix fuel : forall queue,
  (forest_nodes queue <= fuel)%nat ->
  exists rest, comments_bfs fuel queue = queue ++ rest.
Proof.
  induction fuel as [|k IH]; intros [|c queue] Hfuel.
  - exists []. reflexivity.
  - rewrite forest_nodes_cons in Hfuel. lia.
  - exists []. reflexivity.
  - rewrite forest_nodes_cons in Hfuel. cbn [comments_bfs].
    destruct (IH (queue ++ comment_replies c)) as [rest Hrest].
    { rewrite forest_nodes_app. lia. }
    exists (comment_replies c ++ rest). rewrite Hrest, <- app_assoc. reflexivity.
Qed.

(** Every comment under the queue comes out. *)
Lemma comments_bfs_complete fuel : forall queue x,
  (forest_nodes queue <= fuel)%nat ->
  in_forest x queue -> In x (comments_bfs fuel queue).
Proof.
  induction fuel as [|k IH]; intros [|c queue] x Hfuel (c0 & Hc0 & Htree);
    try contradiction.
  - rewrite forest_nodes_cons in Hfuel. lia.
  - rewrite forest_nodes_cons in Hfuel. cbn [comments_bfs].
    assert (Hnext : in_forest x (queue ++ comment_replies c) -> In x
                      (c :: comments_bfs k (queue ++ comment_replies c))).
    { intros Hin. right. apply IH; [rewrite forest_nodes_app; lia|exact Hin]. }
    destruct Hc0 as [<-|Hq].
    + destruct Htree as [|c r Hr Htree]; [left; reflexivity|].
      apply Hnext. exists r. split; [apply in_or_app; right; exact Hr|exact Htree].
    + apply Hnext. exists c0. split; [apply in_or_app; left; exact Hq|exact Htree].
Qed.

Lemma comments_list_complete forest x :
  in_forest x forest -> In x (comments_list forest).
Proof. apply comments_bfs_complete. lia. Qed.

Section CommentTable.

Variable remote : Remote.

(** When the lookup goes through, the comment frame is the frame of the
    records of the flattened tree. *)
Lemma get_post_by_url_comments r n url s forest :
  url_ok remote r n url = true ->
  submission_by_url remote r n url = inr s ->
  submission_comments s = inr forest ->
  snd (fst (get_post_by_url remote r n url))
  = DataFrame_of_records (map comment_record (comments_list forest)).
Proof.
  intros Hok Hs Hc.
  destruct (get_post_by_url_cases remote r n url)
    as [[Hno _]|[_ (s' & forest' & Hs' & Hc' & ->)]]; [congruence|].
  rewrite Hs in Hs'. injection Hs' as <-.
  rewrite Hc in Hc'. injection Hc' as <-. reflexivity.
Qed.

Lemma comment_frame_data cs :
  data (DataFrame_of_records (map comment_record cs)) = map comment_row cs.
Proof. rewrite DataFrame_of_comment_records. destruct cs; reflexivity. Qed.

End CommentTable.

(** X3.  When the lookup goes through, the comment frame has one row per
    comment of the tree, replies at every depth included: its rows are the
    rows of the flattened tree in order, their number is the number of
    comments in the tree, and the top-level comments come first, in the
    order the platform gave them.  With at least one comment the frame has
    the four comment columns. *)
Theorem comment_table_rows (remote : Remote) (r : Reddit) (n : nat) (url : string)
    (s : Submission) (forest : list Comment) :
  url_ok remote r n url = true ->
  submission_by_url remote r n url = inr s ->
  submission_comments s = inr forest ->
  let comments_df := snd (fst (get_post_by_url remote r n url)) in
  data comments_df = map comment_row (comments_list forest)
  /\ len comments_df = forest_nodes forest
  /\ take (length forest) (data comments_df) = map comment_row forest
  /\ (forest <> [] -> columns comments_df = comment_columns).
Proof.
  intros Hok Hs Hc comments_df. subst comments_df.
  rewrite (get_post_by_url_comments remote r n url s forest Hok Hs Hc).
  rewrite comment_frame_data. split; [reflexivity|]. split.
  { unfold len. rewrite comment_frame_data, length_map. apply comments_list_length. }
  destruct (comments_bfs_prefix (forest_nodes forest) forest (Nat.le_refl _))
    as [rest Hrest].
  unfold comments_list. rewrite Hrest. split.
  - rewrite map_app, <- (length_map comment_row forest), take_app_length. reflexivity.
  - intros Hne. rewrite DataFrame_of_comment_records.
    destruct forest as [|c forest]; [contradiction|reflexivity].
Qed.

Lemma comment_table_rows_witness :
  len (snd (fst (get_post_by_url (stub_remote synthetic_forest) test_reddit 0
                   "https://redd.it/1"))) = 3%nat
  /\ take 2 (data (snd (fst (get_post_by_url (stub_remote synthetic_forest) test_reddit 0
                               "https://redd.it/1"))))
     = map comment_row synthetic_forest.
Proof.
  destruct (comment_table_rows (stub_remote synthetic_forest) test_reddit 0
              "https://redd.it/1"
              (mkSubmission (synthetic_post 1 100) (ret synthetic_forest))
              synthetic_forest) as (_ & Hlen & Htop & _).
  - vm_compute. reflexivity.
  - reflexivity.
  - reflexivity.
  - split; [exact Hlen|exact Htop].
Defined.

(** X4.  When the lookup goes through, no comment of the tree is lost in the
    flattening: every comment, however deep under the top-level comments,
    has its row in the comment frame. *)
Theorem comment_tree_complete (remote : Remote) (r : Reddit) (n : nat) (url : string)
    (s : Submission) (forest : list Comment) (c : Comment) :
  url_ok remote r n url = true ->
  submission_by_url remote r n url = inr s ->
  submission_comments s = inr forest ->
  in_forest c forest ->
  In (comment_row c) (data (snd (fst (get_post_by_url remote r n url)))).
Proof.
  intros Hok Hs Hc Hin.
  rewrite (get_post_by_url_comments remote r n url s forest Hok Hs Hc).
  rewrite comment_frame_data. apply in_map, comments_list_complete, Hin.
Qed.

Lemma comment_tree_complete_witness :
  In (comment_row (synthetic_comment "reply" PyNone []))
     (data (snd (fst (get_post_by_url (stub_remote synthetic_forest) test_reddit 0
                        "https://redd.it/1")))).
Proof.
  apply (comment_tree_complete (stub_remote synthetic_forest) test_reddit 0
           "https://redd.it/1"
           (mkSubmission (synthetic_post 1 100) (ret synthetic_forest))
           synthetic_forest (synthetic_comment "reply" PyNone [])).
  - vm_compute. reflexivity.
  - reflexivity.
  - reflexivity.
  - exists (synthetic_comment "first" (PyRedditor "alice")
              [synthetic_comment "reply" PyNone []]).
    split; [left; reflexivity|].
    apply (in_tree_reply _ _ (synthetic_comment "reply" PyNone []));
      [left; reflexivity|apply in_tree_root].
Defined.

(** X5.  One comment anywhere in the tree that lacks one of the four
    attributes the loop reads costs the whole lookup: both frames come back
    empty, the post row included, with one message. *)
Theorem malformed_comment_drops_post (remote : Remote) (r : Reddit) (n : nat)
    (url : string) (s : Submission) (forest : list Comment) (c : Comment) :
  submission_by_url remote r n url = inr s ->
  submission_comments s = inr forest ->
  in_forest c forest ->
  has_attrs comment_attr_names (comment_attrs c) = false ->
  exists msg, get_post_by_url remote r n url
              = ((DataFrame_empty, DataFrame_empty), [msg]).
Proof.
  intros Hs Hc Hin Hbad.
  destruct (get_post_by_url_cases remote r n url) as [[_ Hmsg]|[Hok _]]; [exact Hmsg|].
  exfalso. unfold url_ok in Hok. rewrite Hs, Hc in Hok.
  apply andb_prop in Hok as [_ Hcs]. unfold comments_ok in Hcs.
  rewrite forallb_forall in Hcs.
  rewrite (Hcs c (comments_list_complete forest c Hin)) in Hbad. discriminate.
Qed.

Lemma malformed_comment_drops_post_witness :
  exists msg, get_post_by_url (stub_remote broken_forest) test_reddit 0 "https://redd.it/1"
              = ((DataFrame_empty, DataFrame_empty), [msg]).
Proof.
  apply (malformed_comment_drops_post (stub_remote broken_forest) test_reddit 0
           "https://redd.it/1"
           (mkSubmission (synthetic_post 1 100) (ret broken_forest)) broken_forest
           (mkComment {[ "score" := PyInt 1; "author" := PyNone;
                         "created_utc" := PyFloat "1700000000.0" ]} [])).
  - reflexivity.
  - reflexivity.
  - eexists. split; [left; reflexivity|].
    eapply in_tree_reply; [left; reflexivity|apply in_tree_root].
  - vm_compute. reflexivity.
Defined.

(** X6.  When the lookup goes through, the Author cell of every comment row
    is a string: the account name for a comment whose author is an account,
    and never a null or an account object. *)
Theorem author_cell_is_text (remote : Remote) (r : Reddit) (n : nat) (url : string)
    (s : Submission) (forest : list Comment) (i : nat) (c : Comment) :
  url_ok remote r n url = true ->
  submission_by_url remote r n url = inr s ->
  submission_comments s = inr forest ->
  comments_list forest !! i = Some c ->
  exists text,
    cell (snd (fst (get_post_by_url remote r n url))) i "Author" = Some (PyStr text)
    /\ (forall name, comment_attrs c !! "author" = Some (PyRedditor name) -> text = name).
Proof.
  intros Hok Hs Hc Hi.
  rewrite (get_post_by_url_comments remote r n url s forest Hok Hs Hc).
  rewrite (comment_frame_cell _ _ _ Hi).
  eexists. split; [reflexivity|].
  intros name Hname. unfold attr. rewrite Hname. reflexivity.
Qed.

Lemma author_cell_is_text_witness :
  exists text,
    cell (snd (fst (get_post_by_url (stub_remote synthetic_forest) test_reddit 0
                      "https://redd.it/1"))) 1 "Author" = Some (PyStr text)
    /\ (forall name,
          comment_attrs (synthetic_comment "second" (PyRedditor "bob") []) !! "author"
          = Some (PyRedditor name) -> text = name).
Proof.
  apply (author_cell_is_text (stub_remote synthetic_forest) test_reddit 0
           "https://redd.it/1"
           (mkSubmission (synthetic_post 1 100) (ret synthetic_forest))
           synthetic_forest 1 (synthetic_comment "second" (PyRedditor "bob") [])).
  - vm_compute. reflexivity.
  - reflexivity.
  - reflexivity.
  - reflexivity.
Defined.

(** ** Credentials: which lookups succeed, and where values come from *)

Lemma environ_or_secret_resolvable environ secrets name :
  match environ_or_secret environ secrets name with
  | inr _ => resolvable environ secrets name = true
  | inl e => resolvable environ secrets name = false /\ e = KeyError name
  end.
Proof.
  unfold environ_or_secret, resolvable.
  destruct (truthy (environ !! name)); [reflexivity|].
  destruct (secrets !! name); simpl; [reflexivity|split; reflexivity].
Qed.

(** X7.  [init_reddit] returns a session exactly when each of the three
    names has a truthy value in the environment or an entry in the secret
    store. *)
Theorem init_reddit_succeeds_iff (environ secrets : gmap string string) :
  (exists reddit, init_reddit environ secrets = inr reddit)
  <-> forallb (resolvable environ secrets) credential_names = true.
Proof.
  unfold init_reddit. cbn [credential_names forallb].
  pose proof (environ_or_secret_resolvable environ secrets "REDDIT_CLIENT_ID") as H1.
  pose proof (environ_or_secret_resolvable environ secrets "REDDIT_CLIENT_SECRET") as H2.
  pose proof (environ_or_secret_resolvable environ secrets "REDDIT_USER_AGENT") as H3.
  destruct (environ_or_secret environ secrets "REDDIT_CLIENT_ID") as [e1|v1];
    [destruct H1 as [-> _]; cbn; split; [intros [? ?]; discriminate|discriminate]|].
  destruct (environ_or_secret environ secrets "REDDIT_CLIENT_SECRET") as [e2|v2];
    [destruct H2 as [-> _]; rewrite H1; cbn;
     split; [intros [? ?]; discriminate|discriminate]|].
  destruct (environ_or_secret environ secrets "REDDIT_USER_AGENT") as [e3|v3];
    [destruct H3 as [-> _]; rewrite H1, H2; cbn;
     split; [intros [? ?]; discriminate|discriminate]|].
  rewrite H1, H2, H3. cbn. split; [reflexivity|eauto].
Qed.

Lemma init_reddit_succeeds_iff_witness :
  exists reddit,
    init_reddit {["REDDIT_CLIENT_ID" := "abc"; "REDDIT_USER_AGENT" := EmptyString]}
      {["REDDIT_CLIENT_SECRET" := "xyz"; "REDDIT_USER_AGENT" := "agent"]} = inr reddit.
Proof.
  apply (init_reddit_succeeds_iff
           {["REDDIT_CLIENT_ID" := "abc"; "REDDIT_USER_AGENT" := EmptyString]}
           {["REDDIT_CLIENT_SECRET" := "xyz"; "REDDIT_USER_AGENT" := "agent"]}).
  vm_compute. reflexivity.
Defined.

(** X8.  The names are looked up in the order client id, client secret, user
    agent, and the lookup stops at the first that cannot be resolved: what
    [init_reddit] raises is what the lookup of that name raises, whatever
    holds for the names after it. *)
Theorem init_reddit_first_unresolved (environ secrets : gmap string string)
    (before after : list string) (name : string) :
  credential_names = before ++ name :: after ->
  forallb (resolvable environ secrets) before = true ->
  resolvable environ secrets name = false ->
  exists e, environ_or_secret environ secrets name = inl e
            /\ init_reddit environ secrets = inl e.
Proof.
  intros Hnames Hbefore Hname. unfold init_reddit.
  pose proof (environ_or_secret_resolvable environ secrets "REDDIT_CLIENT_ID") as H1.
  pose proof (environ_or_secret_resolvable environ secrets "REDDIT_CLIENT_SECRET") as H2.
  pose proof (environ_or_secret_resolvable environ secrets "REDDIT_USER_AGENT") as H3.
  unfold credential_names in Hnames.
  destruct before as [|b1 [|b2 [|b3 [|b4 before]]]]; cbn in Hnames;
    injection Hnames as <-; intros; subst; try discriminate.
  - destruct (environ_or_secret environ secrets "REDDIT_CLIENT_ID") as [e1|v1];
      [exists e1; split; reflexivity|congruence].
  - cbn in Hbefore. rewrite andb_true_r in Hbefore.
    destruct (environ_or_secret environ secrets "REDDIT_CLIENT_ID") as [e1|v1];
      [destruct H1; congruence|].
    destruct (environ_or_secret environ secrets "REDDIT_CLIENT_SECRET") as [e2|v2];
      [exists e2; split; reflexivity|congruence].
  - cbn in Hbefore. rewrite andb_true_r in Hbefore.
    apply andb_prop in Hbefore as [Hb1 Hb2].
    destruct (environ_or_secret environ secrets "REDDIT_CLIENT_ID") as [e1|v1];
      [destruct H1; congruence|].
    destruct (environ_or_secret environ secrets "REDDIT_CLIENT_SECRET") as [e2|v2];
      [destruct H2; congruence|].
    destruct (environ_or_secret environ secrets "REDDIT_USER_AGENT") as [e3|v3];
      [exists e3; split; reflexivity|congruence].
Qed.

Lemma init_reddit_first_unresolved_witness :
  exists e,
    environ_or_secret {["REDDIT_CLIENT_ID" := "abc"]} ∅ "REDDIT_CLIENT_SECRET" = inl e
    /\ init_reddit {["REDDIT_CLIENT_ID" := "abc"]} ∅ = inl e.
Proof.
  apply (init_reddit_first_unresolved {["REDDIT_CLIENT_ID" := "abc"]} ∅
           ["REDDIT_CLIENT_ID"] ["REDDIT_USER_AGENT"] "REDDIT_CLIENT_SECRET").
  - reflexivity.
  - vm_compute. reflexivity.
  - vm_compute. reflexivity.
Defined.

Lemma load_env_keeps in_cwd found (environ : gmap string string) name v :
  environ !! name = Some v -> load_env in_cwd found environ !! name = Some v.
Proof.
  intros Hv. unfold load_env. destruct in_cwd, found; try exact Hv.
  apply lookup_union_Some_l. exact Hv.
Qed.

(** X9.  Three sources, in this order: a credential the process environment
    has with a non-empty value is used, whatever [.env] and the secret store
    say; one the environment lacks and the loaded [.env] has with a non-empty
    value is used next, whatever the secret store says. *)
Theorem credential_precedence (in_cwd : bool) (found : option (gmap string string))
    (environ secrets : gmap string string) (name : string) :
  (forall v, environ !! name = Some v -> v <> EmptyString ->
     environ_or_secret (load_env in_cwd found environ) secrets name = inr v)
  /\ (forall file v, in_cwd = true -> found = Some file ->
        environ !! name = None -> file !! name = Some v -> v <> EmptyString ->
        environ_or_secret (load_env in_cwd found environ) secrets name = inr v).
Proof.
  split.
  - intros v Hv Hne. apply environ_first; [|exact Hne].
    apply load_env_keeps. exact Hv.
  - intros file v -> -> Hnone Hv Hne. apply environ_first; [|exact Hne].
    unfold load_env. rewrite lookup_union_r by exact Hnone. exact Hv.
Qed.

Lemma credential_precedence_witness :
  environ_or_secret
    (load_env true (Some {["REDDIT_CLIENT_ID" := "file-id"; "REDDIT_USER_AGENT" := "file-agent"]})
       {["REDDIT_CLIENT_ID" := "env-id"]})
    {["REDDIT_CLIENT_ID" := "store-id"; "REDDIT_USER_AGENT" := "store-agent"]}
    "REDDIT_CLIENT_ID" = inr "env-id"
  /\ environ_or_secret
       (load_env true (Some {["REDDIT_CLIENT_ID" := "file-id"; "REDDIT_USER_AGENT" := "file-agent"]})
          {["REDDIT_CLIENT_ID" := "env-id"]})
       {["REDDIT_CLIENT_ID" := "store-id"; "REDDIT_USER_AGENT" := "store-agent"]}
       "REDDIT_USER_AGENT" = inr "file-agent".
Proof.
  split.
  - apply (proj1 (credential_precedence true
             (Some {["REDDIT_CLIENT_ID" := "file-id"; "REDDIT_USER_AGENT" := "file-agent"]})
             {["REDDIT_CLIENT_ID" := "env-id"]}
             {["REDDIT_CLIENT_ID" := "store-id"; "REDDIT_USER_AGENT" := "store-agent"]}
             "REDDIT_CLIENT_ID")); [reflexivity|discriminate].
  - apply (proj2 (credential_precedence true
             (Some {["REDDIT_CLIENT_ID" := "file-id"; "REDDIT_USER_AGENT" := "file-agent"]})
             {["REDDIT_CLIENT_ID" := "env-id"]}
             {["REDDIT_CLIENT_ID" := "store-id"; "REDDIT_USER_AGENT" := "store-agent"]}
             "REDDIT_USER_AGENT")
             {["REDDIT_CLIENT_ID" := "file-id"; "REDDIT_USER_AGENT" := "file-agent"]});
      [reflexivity|reflexivity|reflexivity|reflexivity|discriminate].
Defined.



(** ** One run of the page *)

Section MainRun.

Variable remote : Remote.

Lemma get_subreddit_posts_cached_state r name limit tf now st :
  let st' := snd (get_subreddit_posts_cached remote r name limit tf now st) in
  (served st <= served st' <= S (served st))%nat
  /\ post_cache st' = post_cache st.
Proof.
  unfold get_subreddit_posts_cached.
  destruct (cache_live (posts_cache st) now (name, limit, tf)); cbn; split; (lia || reflexivity).
Qed.

Lemma get_post_by_url_cached_state r url now st :
  let st' := snd (get_post_by_url_cached remote r url now st) in
  (served st <= served st' <= S (served st))%nat
  /\ posts_cache st' = posts_cache st.
Proof.
  unfold get_post_by_url_cached.
  destruct (cache_live (post_cache st) now url); cbn; split; (lia || reflexivity).
Qed.

(** The state a run leaves behind. *)
Lemma main_state environ secrets ui now st :
  snd (main remote environ secrets ui now st)
  = match init_reddit environ secrets with
    | inl _ => st
    | inr reddit =>
        if negb (button ui) then st
        else if String.eqb (scrape_option ui) "Subreddit Posts"
        then snd (get_subreddit_posts_cached remote reddit (subreddit_name_input ui)
                    (post_limit_input ui) (time_filter_input ui) now st)
        else snd (get_post_by_url_cached remote reddit (post_url_input ui) now st)
    end.
Proof.
  unfold main. destruct (init_reddit environ secrets) as [e|reddit]; [reflexivity|].
  destruct (String.eqb (scrape_option ui) "Subreddit Posts"), (button ui);
    try reflexivity.
  - destruct (get_subreddit_posts_cached remote reddit _ _ _ now st) as [[df errors] st'].
    reflexivity.
  - destruct (get_post_by_url_cached remote reddit _ now st)
      as [[[post_df comments_df] errors] st'].
    reflexivity.
Qed.

End MainRun.

(** X11.  A run of the page makes at most one remote call, and none unless
    the button was pressed; in the channel mode it leaves the cache of the
    URL lookups as it was, and in the URL mode the cache of the listings. *)
Theorem main_at_most_one_call (remote : Remote) (environ secrets : gmap string string)
    (ui : Inputs) (now : Z) (st : AppState) :
  let st' := snd (main remote environ secrets ui now st) in
  (served st <= served st' <= S (served st))%nat
  /\ (button ui = false -> st' = st)
  /\ (scrape_option ui = "Subreddit Posts" -> post_cache st' = post_cache st)
  /\ (scrape_option ui <> "Subreddit Posts" -> posts_cache st' = posts_cache st).
Proof.
  intros st'. subst st'. rewrite main_state.
  destruct (init_reddit environ secrets) as [e|reddit].
  { repeat split; (lia || reflexivity). }
  destruct (button ui); cbn [negb].
  2:{ repeat split; (lia || reflexivity). }
  destruct (String.eqb_spec (scrape_option ui) "Subreddit Posts") as [Hmode|Hmode].
  - destruct (get_subreddit_posts_cached_state remote reddit (subreddit_name_input ui)
                (post_limit_input ui) (time_filter_input ui) now st) as [Hserved Hcache].
    split; [exact Hserved|]. split; [discriminate|].
    split; [intros _; exact Hcache|contradiction].
  - destruct (get_post_by_url_cached_state remote reddit (post_url_input ui) now st)
      as [Hserved Hcache].
    split; [exact Hserved|]. split; [discriminate|].
    split; [contradiction|intros _; exact Hcache].
Qed.

Lemma main_at_most_one_call_witness :
  snd (main (stub_remote []) test_environ ∅ (subreddit_inputs false) 0 AppState_init)
  = AppState_init
  /\ post_cache (snd (main (stub_remote []) test_environ ∅ (subreddit_inputs true) 0
                        AppState_init))
     = post_cache AppState_init.
Proof.
  split.
  - apply (main_at_most_one_call (stub_remote []) test_environ ∅ (subreddit_inputs false)
             0 AppState_init). reflexivity.
  - apply (main_at_most_one_call (stub_remote []) test_environ ∅ (subreddit_inputs true)
             0 AppState_init). reflexivity.
Defined.

Lemma run_all_served remote environ secrets runs : forall st,
  (served (run_all remote environ secrets runs st) <= served st + presses runs)%nat.
Proof.
  induction runs as [|[ui now] runs IH]; intros st.
  - unfold presses. cbn. lia.
  - cbn [run_all]. specialize (IH (snd (main remote environ secrets ui now st))).
    pose proof (main_state remote environ secrets ui now st) as Hst.
    unfold presses in *. cbn [List.filter fst].
    destruct (button ui) eqn:Hbutton; cbn [negb] in Hst.
    + cbn [length].
      assert (served (snd (main remote environ secrets ui now st)) <= S (served st))%nat.
      { rewrite Hst. destruct (init_reddit environ secrets) as [e|reddit]; [lia|].
        destruct (String.eqb (scrape_option ui) "Subreddit Posts").
        - apply get_subreddit_posts_cached_state.
        - apply get_post_by_url_cached_state. }
      lia.
    + assert (Heq : snd (main remote environ secrets ui now st) = st)
        by (rewrite Hst; destruct (init_reddit environ secrets); reflexivity).
      rewrite Heq in IH |- *. exact IH.
Qed.

(** X12.  Over any series of runs of the page, the platform is called at
    most once per press of a button: re-runs caused by other widgets cost no
    request. *)
Theorem session_calls_bounded (remote : Remote) (environ secrets : gmap string string)
    (runs : list (Inputs * Z)) :
  (served (run_all remote environ secrets runs AppState_init) <= presses runs)%nat.
Proof. apply (run_all_served remote environ secrets runs AppState_init). Qed.

Lemma read_csv_to_csv df :
  read_csv (encode_utf8 (to_csv df)) = Some (columns df :: map (map cell_text) (data df)).
Proof.
  unfold read_csv, encode_utf8, decode_utf8, to_csv.
  rewrite string_of_list_byte_of_string. apply reader_lines.
Qed.

(** X13.  In the channel mode, a fetch that fails does not stop the run and
    is not told apart from a fetch that found nothing: after the error
    message the page still reports success with 0 posts, shows the empty
    frame, and offers a download that holds a single line end. *)
Theorem main_failed_fetch_page (remote : Remote) (environ secrets : gmap string string)
    (ui : Inputs) (now : Z) (st : AppState) (reddit : Reddit) :
  init_reddit environ secrets = inr reddit ->
  scrape_option ui = "Subreddit Posts" ->
  button ui = true ->
  cache_live (posts_cache st) now
    (subreddit_name_input ui, post_limit_input ui, time_filter_input ui) = None ->
  top_fails remote reddit (served st) (subreddit_name_input ui) (post_limit_input ui)
    (time_filter_input ui) ->
  exists msg,
    fst (main remote environ secrets ui now st)
    = inr [st_title "Reddit Data Scraper"; st_header "Subreddit Posts Scraper";
           st_error msg;
           st_success "Successfully scraped 0 posts!";
           st_dataframe DataFrame_empty;
           st_download_button "Download CSV" (encode_utf8 (String LF EmptyString))
             (subreddit_name_input ui +:+ "_posts.csv") "text/csv" "download-csv"].
Proof.
  intros Hinit Hmode Hbutton Hmiss Hfails.
  destruct (top_fails_try remote _ _ _ _ _ Hfails) as [e He].
  apply get_subreddit_posts_except in He.
  exists ("Error fetching subreddit posts: " +:+ exc_msg e).
  unfold main. rewrite Hinit, Hmode, Hbutton. cbn [String.eqb Ascii.eqb Bool.eqb].
  rewrite (get_subreddit_posts_cached_miss remote reddit _ _ _ now st Hmiss), He.
  reflexivity.
Qed.

Lemma main_failed_fetch_page_witness :
  exists msg,
    fst (main unreachable_remote test_environ ∅ (subreddit_inputs true) 0 AppState_init)
    = inr [st_title "Reddit Data Scraper"; st_header "Subreddit Posts Scraper";
           st_error msg;
           st_success "Successfully scraped 0 posts!";
           st_dataframe DataFrame_empty;
           st_download_button "Download CSV" (encode_utf8 (String LF EmptyString))
             ("testsub" +:+ "_posts.csv") "text/csv" "download-csv"].
Proof.
  apply (main_failed_fetch_page unreachable_remote test_environ ∅ (subreddit_inputs true)
           0 AppState_init test_reddit).
  - reflexivity.
  - reflexivity.
  - reflexivity.
  - reflexivity.
  - eexists. reflexivity.
Defined.

Lemma frames_of_app page1 page2 :
  frames_of (page1 ++ page2) = frames_of page1 ++ frames_of page2.
Proof.
  induction page1 as [|el page1 IH]; [reflexivity|].
  destruct el; cbn [app frames_of]; rewrite IH; reflexivity.
Qed.

Lemma downloads_of_app page1 page2 :
  downloads_of (page1 ++ page2) = downloads_of page1 ++ downloads_of page2.
Proof.
  induction page1 as [|el page1 IH]; [reflexivity|].
  destruct el; cbn [app downloads_of]; rewrite IH; reflexivity.
Qed.

Lemma errors_show_nothing_else errors :
  frames_of (map st_error errors) = [] /\ downloads_of (map st_error errors) = [].
Proof. induction errors as [|e errors [IHf IHd]]; split; cbn; assumption || reflexivity. Qed.

(** X14.  What a run offers for download is what it shows, frame by frame.
    In the channel mode the page shows the frame the fetch returned and
    offers one download, named after the channel, whose bytes parse back to
    the labels and the cell texts of that frame.  In the URL mode the page
    shows the post frame and then the comment frame, and offers two
    downloads: [post_details.csv] parses back to the post frame and
    [comments.csv] to the comment frame. *)
Theorem main_download_matches_frame (remote : Remote)
    (environ secrets : gmap string string) (ui : Inputs) (now : Z) (st : AppState)
    (reddit : Reddit) :
  init_reddit environ secrets = inr reddit ->
  button ui = true ->
  let page := page_of (main remote environ secrets ui now st) in
  (scrape_option ui = "Subreddit Posts" ->
   let df := fst (fst (get_subreddit_posts_cached remote reddit (subreddit_name_input ui)
                         (post_limit_input ui) (time_filter_input ui) now st)) in
   frames_of page = [df]
   /\ exists bytes,
        downloads_of page
        = [("Download CSV", subreddit_name_input ui +:+ "_posts.csv", bytes)]
        /\ read_csv bytes = Some (columns df :: map (map value_text) (data df)))
  /\ (scrape_option ui <> "Subreddit Posts" ->
      let dfs := fst (fst (get_post_by_url_cached remote reddit (post_url_input ui)
                             now st)) in
      frames_of page = [fst dfs; snd dfs]
      /\ exists post_bytes comments_bytes,
           downloads_of page
           = [("Download Post CSV", "post_details.csv", post_bytes);
              ("Download Comments CSV", "comments.csv", comments_bytes)]
           /\ read_csv post_bytes
              = Some (columns (fst dfs) :: map (map value_text) (data (fst dfs)))
           /\ read_csv comments_bytes
              = Some (columns (snd dfs) :: map (map value_text) (data (snd dfs)))).
Proof.
  intros Hinit Hbutton page. subst page. unfold page_of, main.
  rewrite Hinit, Hbutton. split.
  - intros ->. cbn [String.eqb Ascii.eqb Bool.eqb].
    destruct (get_subreddit_posts_cached remote reddit _ _ _ now st) as [[df errors] st'].
    cbn [fst snd]. unfold ret.
    destruct (errors_show_nothing_else errors) as [Hf Hd].
    rewrite !frames_of_app, !downloads_of_app, Hf, Hd. cbn.
    split; [reflexivity|]. eexists. split; [reflexivity|apply read_csv_value_text].
  - intros Hmode. apply String.eqb_neq in Hmode. rewrite Hmode.
    destruct (get_post_by_url_cached remote reddit _ now st)
      as [[[post_df comments_df] errors] st'].
    cbn [fst snd]. unfold ret.
    destruct (errors_show_nothing_else errors) as [Hf Hd].
    rewrite !frames_of_app, !downloads_of_app, Hf, Hd. cbn.
    split; [reflexivity|]. eexists _, _.
    split; [reflexivity|]. split; apply read_csv_value_text.
Qed.

Lemma main_download_matches_frame_witness :
  frames_of (page_of (main (stub_remote synthetic_forest) test_environ ∅ (url_inputs true) 0
                        AppState_init))
  = [fst (fst (get_post_by_url (stub_remote synthetic_forest) test_reddit 0
                 "https://redd.it/1"));
     snd (fst (get_post_by_url (stub_remote synthetic_forest) test_reddit 0
                 "https://redd.it/1"))]
  /\ exists post_bytes comments_bytes,
       downloads_of (page_of (main (stub_remote synthetic_forest) test_environ ∅
                                (url_inputs true) 0 AppState_init))
       = [("Download Post CSV", "post_details.csv", post_bytes);
          ("Download Comments CSV", "comments.csv", comments_bytes)]
       /\ read_csv post_bytes
          = Some [post_columns;
                  ["post 1"; "text"; "t3_1"; "100"; "0"; "https://redd.it/1"]]
       /\ read_csv comments_bytes
          = Some [comment_columns;
                  ["first"; "1"; "alice"; "1700000000.0"];
                  ["second"; "1"; "bob"; "1700000000.0"];
                  ["reply"; "1"; "None"; "1700000000.0"]].
Proof.
  destruct (main_download_matches_frame (stub_remote synthetic_forest) test_environ ∅
              (url_inputs true) 0 AppState_init test_reddit) as [_ Hurl].
  - reflexivity.
  - reflexivity.
  - destruct Hurl as (Hframes & post_bytes & comments_bytes & Hdown & Hpost & Hcomments).
    + discriminate.
    + split; [exact Hframes|].
      exists post_bytes, comments_bytes. split; [exact Hdown|].
      split; [rewrite Hpost|rewrite Hcomments]; vm_compute; reflexivity.
Defined.

(** ** The caches of the two decorated functions *)

Section CachedUrlCalls.

Variable remote : Remote.

Lemma get_post_by_url_cached_hit r url now st v :
  cache_live (post_cache st) now url = Some v ->
  get_post_by_url_cached remote r url now st = (v, st).
Proof. unfold get_post_by_url_cached. intros ->. reflexivity. Qed.

Lemma get_post_by_url_cached_miss r url now st :
  cache_live (post_cache st) now url = None ->
  get_post_by_url_cached remote r url now st
  = (get_post_by_url remote r (served st) url,
     mkAppState (posts_cache st)
       (cache_store (post_cache st) now url (get_post_by_url remote r (served st) url))
       (S (served st))).
Proof. unfold get_post_by_url_cached. intros ->. reflexivity. Qed.

End CachedUrlCalls.

(** X15.  A failure is remembered like a result: after a listing that failed
    on a cache miss, every call with the same channel, limit and window in
    the hour that follows returns the same empty frame and error message
    without asking the platform again, whatever the platform would answer by
    then. *)
Theorem failed_fetch_is_cached (remote : Remote) (r1 r2 : Reddit)
    (name : string) (limit : Z) (tf : string) (t1 t2 : Z) (st : AppState) :
  cache_live (posts_cache st) t1 (name, limit, tf) = None ->
  top_fails remote r1 (served st) name limit tf ->
  t1 <= t2 < t1 + 3600 ->
  let call1 := get_subreddit_posts_cached remote r1 name limit tf t1 st in
  let call2 := get_subreddit_posts_cached remote r2 name limit tf t2 (snd call1) in
  exists msg,
    fst call1 = (DataFrame_empty, [msg])
    /\ fst call2 = (DataFrame_empty, [msg])
    /\ served (snd call2) = S (served st).
Proof.
  intros Hmiss Hfails Ht call1 call2.
  destruct (top_fails_try remote _ _ _ _ _ Hfails) as [e He].
  apply get_subreddit_posts_except in He.
  exists ("Error fetching subreddit posts: " +:+ exc_msg e).
  subst call2 call1.
  rewrite (get_subreddit_posts_cached_miss remote r1 _ _ _ _ _ Hmiss), He. cbn [fst snd].
  rewrite (get_subreddit_posts_cached_hit remote r2 name limit tf t2 _
             (DataFrame_empty, ["Error fetching subreddit posts: " +:+ exc_msg e]))
    by (cbn [posts_cache]; apply cache_live_store; unfold ttl; lia).
  repeat split; reflexivity.
Qed.

Lemma failed_fetch_is_cached_witness :
  exists msg,
    fst (get_subreddit_posts_cached recovering_remote test_reddit "testsub" 5 "week" 0
           AppState_init) = (DataFrame_empty, [msg])
    /\ fst (get_subreddit_posts_cached recovering_remote other_reddit "testsub" 5 "week" 1800
              (snd (get_subreddit_posts_cached recovering_remote test_reddit "testsub" 5
                      "week" 0 AppState_init))) = (DataFrame_empty, [msg])
    /\ len (fst (get_subreddit_posts recovering_remote other_reddit 1 "testsub" 5 "week"))
       = 5%nat.
Proof.
  destruct (failed_fetch_is_cached recovering_remote test_reddit other_reddit
              "testsub" 5 "week" 0 1800 AppState_init) as (msg & H1 & H2 & _).
  - reflexivity.
  - eexists. reflexivity.
  - lia.
  - exists msg. split; [exact H1|]. split; [exact H2|]. vm_compute. reflexivity.
Defined.

(** X16.  The lookup by URL is memoized on the URL alone: after a call that
    found no live entry, a call with the same URL less than an hour later,
    through any session, returns the same two frames and messages, makes no
    remote call and leaves the state as it is. *)
Theorem cached_post_within_ttl (remote : Remote) (r1 r2 : Reddit) (url : string)
    (t1 t2 : Z) (st : AppState) :
  cache_live (post_cache st) t1 url = None ->
  t1 <= t2 < t1 + 3600 ->
  let call1 := get_post_by_url_cached remote r1 url t1 st in
  let call2 := get_post_by_url_cached remote r2 url t2 (snd call1) in
  fst call1 = get_post_by_url remote r1 (served st) url
  /\ fst call2 = fst call1
  /\ snd call2 = snd call1
  /\ served (snd call2) = S (served st).
Proof.
  intros Hmiss Ht call1 call2. subst call2 call1.
  rewrite (get_post_by_url_cached_miss remote r1 _ _ _ Hmiss). cbn [fst snd].
  rewrite (get_post_by_url_cached_hit remote r2 url t2 _
             (get_post_by_url remote r1 (served st) url))
    by (cbn [post_cache]; apply cache_live_store; unfold ttl; lia).
  repeat split; reflexivity.
Qed.

Lemma cached_post_within_ttl_witness :
  fst (get_post_by_url_cached (stub_remote synthetic_forest) other_reddit
         "https://redd.it/1" 3599
         (snd (get_post_by_url_cached (stub_remote synthetic_forest) test_reddit
                 "https://redd.it/1" 0 AppState_init)))
  = fst (get_post_by_url_cached (stub_remote synthetic_forest) test_reddit
           "https://redd.it/1" 0 AppState_init).
Proof.
  apply (cached_post_within_ttl (stub_remote synthetic_forest) test_reddit other_reddit
           "https://redd.it/1" 0 3599 AppState_init).
  - reflexivity.
  - lia.
Defined.

(** X17.  A call touches the entry of its own arguments only: for any other
    channel, limit or window, what the cache answers, at any time, is what
    it answered before the call. *)
Theorem cached_call_keeps_other_entries (remote : Remote) (r : Reddit)
    (name : string) (limit : Z) (tf : string) (now : Z) (st : AppState)
    (key' : string * Z * string) (now' : Z) :
  key' <> (name, limit, tf) ->
  cache_live (posts_cache (snd (get_subreddit_posts_cached remote r name limit tf now st)))
    now' key'
  = cache_live (posts_cache st) now' key'.
Proof.
  intros Hne. unfold get_subreddit_posts_cached.
  destruct (cache_live (posts_cache st) now (name, limit, tf)); [reflexivity|].
  cbn [snd posts_cache]. unfold cache_live, cache_store.
  rewrite lookup_insert_ne by congruence. reflexivity.
Qed.

Lemma cached_call_keeps_other_entries_witness :
  cache_live
    (posts_cache
       (snd (get_subreddit_posts_cached changing_remote test_reddit "other" 5 "week" 10
               (snd (get_subreddit_posts_cached changing_remote test_reddit "testsub" 5
                       "week" 0 AppState_init)))))
    20 ("testsub", 5, "week")
  = cache_live
      (posts_cache (snd (get_subreddit_posts_cached changing_remote test_reddit "testsub" 5
                           "week" 0 AppState_init)))
      20 ("testsub", 5, "week").
Proof.
  apply (cached_call_keeps_other_entries changing_remote test_reddit "other" 5 "week" 10
           (snd (get_subreddit_posts_cached changing_remote test_reddit "testsub" 5
                   "week" 0 AppState_init))
           ("testsub", 5, "week") 20).
  discriminate.
Defined.

Lemma listing_items_listing_of items : listing_items (listing_of items) = items.
Proof.
  induction items as [|item items IH]; [reflexivity|].
  cbn [listing_of fold_right listing_items]. f_equal. exact IH.
Qed.

Lemma stub_remote_bounded forest : remote_bounded (stub_remote forest).
Proof.
  intros r n name limit tf Hlimit. cbn [stub_remote subreddit_top].
  rewrite listing_items_listing_of, length_take. lia.
Qed.

(** X18.  The row bound holds through the cache: with a platform that yields
    at most [limit] items for the limits of the slider, in every state the
    process can reach from its start the decorated fetch returns at most
    [limit] rows, whether the answer comes from the platform or from an entry
    stored by an earlier call. *)
Theorem decorated_fetch_within_limit (remote : Remote) (st : AppState) (r : Reddit)
    (name : string) (limit : Z) (tf : string) (now : Z) :
  remote_bounded remote ->
  reachable remote st ->
  1 <= limit <= 100 ->
  Z.of_nat (len (fst (fst (get_subreddit_posts_cached remote r name limit tf now st))))
  <= limit.
Proof.
  intros Hremote Hst.
  apply (get_subreddit_posts_cached_bounded remote Hremote r name limit tf now st).
  apply (reachable_bounded remote Hremote st Hst).
Qed.

Lemma decorated_fetch_within_limit_witness :
  Z.of_nat
    (len (fst (fst (get_subreddit_posts_cached (stub_remote []) other_reddit
                      "testsub" 3 "week" 100
                      (snd (get_subreddit_posts_cached (stub_remote []) test_reddit
                              "testsub" 3 "week" 0 AppState_init))))))
  <= 3.
Proof.
  apply (decorated_fetch_within_limit (stub_remote [])
           (snd (get_subreddit_posts_cached (stub_remote []) test_reddit
                   "testsub" 3 "week" 0 AppState_init))
           other_reddit "testsub" 3 "week" 100).
  - apply stub_remote_bounded.
  - apply reachable_posts, reachable_init.
  - lia.
Defined.

(** X19.  The export keeps the labels and the text of every cell and loses
    nothing else than the type of a cell: two frames are exported to the same
    text exactly when they have the same column labels and, row by row and
    cell by cell, the same cell texts. *)
Theorem to_csv_same_text (df1 df2 : DataFrame) :
  to_csv df1 = to_csv df2
  <-> columns df1 = columns df2
      /\ map (map cell_text) (data df1) = map (map cell_text) (data df2).
Proof.
  split.
  - intros Heq.
    pose proof (read_csv_to_csv df1) as H1. pose proof (read_csv_to_csv df2) as H2.
    rewrite Heq, H2 in H1. injection H1 as H1 H1'. split; congruence.
  - intros [Hc Hd]. unfold to_csv. rewrite Hc, Hd. reflexivity.
Qed.

Lemma to_csv_same_text_witness :
  to_csv (mkDataFrame ["Post Text"; "Score"] [[PyNone; PyInt 7]])
  = to_csv (mkDataFrame ["Post Text"; "Score"] [[PyStr EmptyString; PyStr "7"]]).
Proof.
  apply (to_csv_same_text (mkDataFrame ["Post Text"; "Score"] [[PyNone; PyInt 7]])
           (mkDataFrame ["Post Text"; "Score"] [[PyStr EmptyString; PyStr "7"]])).
  split; reflexivity.
Defined.

(** ** Telling a failure from an empty result *)

(** X20.  The post frame of a lookup by URL has exactly one row when the
    lookup goes through, however many comments there are, and no row when it
    does not; in the second case the comment frame is empty too. *)
Theorem post_table_one_row_or_none (remote : Remote) (r : Reddit) (n : nat)
    (url : string) :
  let post_df := fst (fst (get_post_by_url remote r n url)) in
  let comments_df := snd (fst (get_post_by_url remote r n url)) in
  (url_ok remote r n url = true /\ len post_df = 1%nat
   /\ columns post_df = post_columns /\ snd (get_post_by_url remote r n url) = [])
  \/ (url_ok remote r n url = false /\ post_df = DataFrame_empty
      /\ comments_df = DataFrame_empty
      /\ length (snd (get_post_by_url remote r n url)) = 1%nat).
Proof.
  cbv zeta.
  destruct (get_post_by_url_cases remote r n url)
    as [[Hno [msg ->]]|[Hok (s & forest & _ & _ & ->)]].
  - right. repeat split; [exact Hno|reflexivity..].
  - left. repeat split; [exact Hok|reflexivity..].
Qed.

(** X21.  The frame returned by [get_subreddit_posts] shows by itself whether
    the fetch failed: it has the six post columns exactly when no error
    message was shown, and no columns exactly when one was. *)
Theorem failure_shows_in_columns (remote : Remote) (r : Reddit) (n : nat)
    (name : string) (limit : Z) (tf : string) :
  let df := fst (get_subreddit_posts remote r n name limit tf) in
  let errors := snd (get_subreddit_posts remote r n name limit tf) in
  (columns df = post_columns <-> errors = [])
  /\ (columns df = [] <-> length errors = 1%nat).
Proof.
  cbv zeta.
  destruct (get_subreddit_posts_cases remote r n name limit tf) as [[_ [msg ->]]|[_ ->]];
    cbn [fst snd columns DataFrame_empty length]; split; split;
      (reflexivity || discriminate).
Qed.
